(** * The hash-database dispatch layer of The Sleuth Kit

    A shallow embedding of [tsk/hashdb/tsk_hashdb.c]: the format
    detector [hdb_determine_db_type], the router [tsk_hdb_open], and the
    caller-facing wrappers that validate a handle and dispatch through
    the function pointers of [TSK_HDB_INFO].

    The C code is stateful.  It is embedded with explicit state passing
    through a small monad over a [world] that holds the process-wide
    error record, the streams and buffers currently held, and a log of
    the calls made into collaborators that live in other files. *)

From Stdlib Require Import ZArith List String Ascii Bool Arith Lia.
Import ListNotations.

Local Open Scope string_scope.
Local Open Scope list_scope.

(** ** The error record ([tsk_error_reset], [tsk_error_set_errno],
       [tsk_error_set_errstr]) *)

Inductive TSK_ERR : Type :=
| TSK_ERR_HDB_UNKTYPE
| TSK_ERR_HDB_ARG
| TSK_ERR_HDB_OPEN
| TSK_ERR_HDB_PROC.

(** [t_errno = None] is the cleared state (errno 0). *)
Record TSK_ERROR_INFO : Type := {
  t_errno : option TSK_ERR;
  errstr : string
}.

Definition tsk_error_reset (_ : TSK_ERROR_INFO) : TSK_ERROR_INFO :=
  {| t_errno := None; errstr := "" |}.

Definition tsk_error_set_errno (c : TSK_ERR) (e : TSK_ERROR_INFO) : TSK_ERROR_INFO :=
  {| t_errno := Some c; errstr := errstr e |}.

Definition tsk_error_set_errstr (s : string) (e : TSK_ERROR_INFO) : TSK_ERROR_INFO :=
  {| t_errno := t_errno e; errstr := s |}.

(** ** C strings and character buffers

    A [TSK_TCHAR] is a [char] (the non-Windows build).  A C string is
    represented by the characters in front of its terminator; a buffer
    is the list of all its cells. *)

Definition TSK_TCHAR : Type := ascii.
Definition NUL : TSK_TCHAR := Ascii.zero.
Definition path : Type := list TSK_TCHAR.

(** No terminator inside the represented characters. *)
Definition cstring (s : list TSK_TCHAR) : Prop := forallb (fun c => negb (Ascii.eqb c NUL)) s = true.

(** Reading a buffer as a C string: the cells before the first NUL. *)
Fixpoint c_str (m : list TSK_TCHAR) : list TSK_TCHAR :=
  match m with
  | [] => []
  | c :: t => if Ascii.eqb c NUL then [] else c :: c_str t
  end.

Definition TSTRLEN (s : list TSK_TCHAR) : nat := List.length s.

(** [strrchr s c] for [c <> NUL]: the offset of the last [c] in [s], the
    pointer difference [ext - s] of the C code; [None] is NULL. *)
Fixpoint TSTRRCHR (s : list TSK_TCHAR) (c : TSK_TCHAR) : option nat :=
  match s with
  | [] => None
  | x :: t =>
      match TSTRRCHR t c with
      | Some k => Some (S k)
      | None => if Ascii.eqb x c then Some 0%nat else None
      end
  end.

(** [strcmp]: the sign of the first difference, comparing unsigned chars. *)
Fixpoint TSTRCMP (a b : list TSK_TCHAR) : Z :=
  match a, b with
  | [], [] => 0%Z
  | [], _ :: _ => (-1)%Z
  | _ :: _, [] => 1%Z
  | x :: a', y :: b' =>
      if Ascii.eqb x y then TSTRCMP a' b'
      else if (nat_of_ascii x <? nat_of_ascii y)%nat then (-1)%Z else 1%Z
  end.

(** [strncpy dst src n]: exactly [n] cells of [dst] are written, the
    characters of [src] and then NULs when [src] is shorter; no
    terminator is added when [src] has [n] characters or more.  The
    callers here keep [n] below the size of [dst]. *)
Definition TSTRNCPY (dst src : list TSK_TCHAR) (n : nat) : list TSK_TCHAR :=
  firstn n (src ++ repeat NUL n) ++ skipn n dst.

Definition _TSK_T (s : string) : list TSK_TCHAR := list_ascii_of_string s.

(** Rendering of [%u]. *)
Fixpoint dec_digits (fuel n : nat) (acc : string) : string :=
  match fuel with
  | O => acc
  | S f =>
      let acc' := String (ascii_of_nat (48 + n mod 10)) acc in
      if (n / 10 =? 0)%nat then acc' else dec_digits f (n / 10) acc'
  end.

Definition show_u (n : nat) : string := dec_digits (S n) n "".

(** ** Types of [tsk_hashdb.h] *)

Inductive TSK_HDB_DBTYPE_ENUM : Type :=
| TSK_HDB_DBTYPE_INVALID_ID
| TSK_HDB_DBTYPE_NSRL_ID
| TSK_HDB_DBTYPE_MD5SUM_ID
| TSK_HDB_DBTYPE_HK_ID
| TSK_HDB_DBTYPE_IDXONLY_ID
| TSK_HDB_DBTYPE_ENCASE_ID
| TSK_HDB_DBTYPE_SQLITE_ID.

(** The enumerators' values, as the header declares them (used only
    when an error message prints [db_type] with [%u]). *)
Definition dbtype_code (t : TSK_HDB_DBTYPE_ENUM) : nat :=
  match t with
  | TSK_HDB_DBTYPE_INVALID_ID => 0
  | TSK_HDB_DBTYPE_NSRL_ID => 1
  | TSK_HDB_DBTYPE_MD5SUM_ID => 2
  | TSK_HDB_DBTYPE_HK_ID => 3
  | TSK_HDB_DBTYPE_IDXONLY_ID => 4
  | TSK_HDB_DBTYPE_ENCASE_ID => 5
  | TSK_HDB_DBTYPE_SQLITE_ID => 6
  end.

Definition dbtype_eqb (a b : TSK_HDB_DBTYPE_ENUM) : bool :=
  (dbtype_code a =? dbtype_code b)%nat.

Inductive TSK_HDB_HTYPE_ENUM : Type :=
| TSK_HDB_HTYPE_INVALID_ID
| TSK_HDB_HTYPE_MD5_ID
| TSK_HDB_HTYPE_SHA1_ID
| TSK_HDB_HTYPE_SHA2_256_ID.

(** A C integer read as a truth value. *)
Definition nonzero (v : Z) : bool := negb (v =? 0)%Z.

(** ** Streams

    A [FILE] opened for reading: the name it was opened under, the
    bytes it delivers, the current offset, and whether it can seek: a
    regular file can, a FIFO or a pipe, which [fopen] opens just as
    well, cannot.  On a stream that cannot seek the offset counts the
    bytes consumed so far. *)
Record FILE : Type := {
  f_name : path;
  f_data : list Byte.byte;
  f_pos : nat;
  f_seekable : bool
}.

(** [fseeko(hDb, 0, SEEK_SET)], whose result the code ignores: on a
    stream that can seek the offset becomes 0; on one that cannot the
    call fails and the stream stays where it is. *)
Definition rewind_stream (hDb : FILE) : FILE :=
  if f_seekable hDb then
    {| f_name := f_name hDb; f_data := f_data hDb; f_pos := 0;
       f_seekable := f_seekable hDb |}
  else hDb.

(** The stream after a read that left it at [off]. *)
Definition seek_to (hDb : FILE) (off : nat) : FILE :=
  {| f_name := f_name hDb; f_data := f_data hDb; f_pos := off;
     f_seekable := f_seekable hDb |}.

(** A sniff test of another file ([sqlite_hdb_is_sqlite_file],
    [nsrl_test], ...): it reads the stream from its current offset and
    answers with its verdict and the offset at which it leaves the
    stream. *)
Definition sniff_test : Type := FILE -> Z * nat.

Record sniffers : Type := {
  sqlite_hdb_is_sqlite_file : sniff_test;
  nsrl_test : sniff_test;
  md5sum_test : sniff_test;
  encase_test : sniff_test;
  hk_test : sniff_test
}.

Definition run_test (t : sniff_test) (hDb : FILE) : Z * FILE :=
  (fst (t hDb), seek_to hDb (snd (t hDb))).

(** ** The format detector (lines 39-85)

    Each text test is preceded by a rewind.  The source nests
    [if (db_type != INVALID) return INVALID] inside [if (test)]; below
    the two conditions are joined by [&&] and the assignment that
    follows the inner [if] is the [let] of the [else] branch. *)

Definition hdb_determine_db_type (S : sniffers) (hDb : FILE) (db_path : path)
  : TSK_HDB_DBTYPE_ENUM * FILE :=
  let db_type := TSK_HDB_DBTYPE_INVALID_ID in
  let '(v, hDb) := run_test (sqlite_hdb_is_sqlite_file S) hDb in
  if nonzero v then
    let hDb := rewind_stream hDb in
    (TSK_HDB_DBTYPE_SQLITE_ID, hDb)
  else
    let hDb := rewind_stream hDb in
    let '(v, hDb) := run_test (nsrl_test S) hDb in
    let db_type := if nonzero v then TSK_HDB_DBTYPE_NSRL_ID else db_type in
    let hDb := rewind_stream hDb in
    let '(v, hDb) := run_test (md5sum_test S) hDb in
    if nonzero v && negb (dbtype_eqb db_type TSK_HDB_DBTYPE_INVALID_ID) then
      let hDb := rewind_stream hDb in
      (TSK_HDB_DBTYPE_INVALID_ID, hDb)
    else
      let db_type := if nonzero v then TSK_HDB_DBTYPE_MD5SUM_ID else db_type in
      let hDb := rewind_stream hDb in
      let '(v, hDb) := run_test (encase_test S) hDb in
      if nonzero v && negb (dbtype_eqb db_type TSK_HDB_DBTYPE_INVALID_ID) then
        let hDb := rewind_stream hDb in
        (TSK_HDB_DBTYPE_INVALID_ID, hDb)
      else
        let db_type := if nonzero v then TSK_HDB_DBTYPE_ENCASE_ID else db_type in
        let hDb := rewind_stream hDb in
        let '(v, hDb) := run_test (hk_test S) hDb in
        if nonzero v && negb (dbtype_eqb db_type TSK_HDB_DBTYPE_INVALID_ID) then
          let hDb := rewind_stream hDb in
          (TSK_HDB_DBTYPE_INVALID_ID, hDb)
        else
          let db_type := if nonzero v then TSK_HDB_DBTYPE_HK_ID else db_type in
          let hDb := rewind_stream hDb in
          (db_type, hDb).

(** ** The world the code runs in *)

(** The entries of the function table of [TSK_HDB_INFO]. *)
Inductive vslot : Type :=
| slot_get_db_path
| slot_get_display_name
| slot_uses_external_indexes
| slot_get_index_path
| slot_open_index
| slot_make_index
| slot_lookup_str
| slot_lookup_raw
| slot_lookup_verbose_str
| slot_accepts_updates
| slot_add_entry
| slot_begin_transaction
| slot_commit_transaction
| slot_rollback_transaction
| slot_close_db.

(** Calls that leave this file. *)
Inductive call : Type :=
| call_backend (s : vslot)
| call_hdb_open_file (p : path)
| call_constructor (t : TSK_HDB_DBTYPE_ENUM) (db_path : path)
| call_sqlite_hdb_create_db (p : path).

Record world : Type := {
  tsk_error : TSK_ERROR_INFO;
  dispatched : list call;       (* oldest first *)
  open_streams : list path;     (* streams opened and not yet closed *)
  live_buffers : nat            (* blocks obtained from tsk_malloc and not yet freed *)
}.

Definition with_error (e : TSK_ERROR_INFO) (w : world) : world :=
  {| tsk_error := e; dispatched := dispatched w;
     open_streams := open_streams w; live_buffers := live_buffers w |}.

Definition with_call (c : call) (w : world) : world :=
  {| tsk_error := tsk_error w; dispatched := dispatched w ++ [c];
     open_streams := open_streams w; live_buffers := live_buffers w |}.

Definition with_streams (l : list path) (w : world) : world :=
  {| tsk_error := tsk_error w; dispatched := dispatched w;
     open_streams := l; live_buffers := live_buffers w |}.

Definition with_buffers (n : nat) (w : world) : world :=
  {| tsk_error := tsk_error w; dispatched := dispatched w;
     open_streams := open_streams w; live_buffers := n |}.

(** A run either returns a value in a new world or calls through a
    NULL function pointer, which C leaves undefined. *)
Inductive outcome (A : Type) : Type :=
| Returned (a : A) (w : world)
| Fault.

Arguments Returned {A} a w.
Arguments Fault {A}.

Definition M (A : Type) : Type := world -> outcome A.

Definition ret {A : Type} (a : A) : M A := fun w => Returned a w.

Definition bind {A B : Type} (c : M A) (k : A -> M B) : M B :=
  fun w => match c w with
           | Returned a w' => k a w'
           | Fault => Fault
           end.

Definition fault {A : Type} : M A := fun _ => Fault.

Declare Scope hdb_scope.
Delimit Scope hdb_scope with hdb.
Notation "x <- c ;; k" := (bind c (fun x => k))
  (at level 61, c at next level, right associativity) : hdb_scope.
Notation "' p <- c ;; k" := (bind c (fun x => let p := x in k))
  (at level 61, p pattern, c at next level, right associativity) : hdb_scope.
Notation "c ;; k" := (bind c (fun _ => k))
  (at level 61, right associativity) : hdb_scope.
Local Open Scope hdb_scope.

(** The three-statement idiom of every error path:
    [tsk_error_reset(); tsk_error_set_errno(c); tsk_error_set_errstr(s)]. *)
Definition report (c : TSK_ERR) (s : string) : M unit :=
  fun w => Returned tt
    (with_error (tsk_error_set_errstr s (tsk_error_set_errno c (tsk_error_reset (tsk_error w)))) w).

Definition log (c : call) : M unit := fun w => Returned tt (with_call c w).

Fixpoint remove_first (p : path) (l : list path) : list path :=
  match l with
  | [] => []
  | q :: t => if list_eq_dec Ascii.ascii_dec p q then t else q :: remove_first p t
  end.

Definition fclose (f : FILE) : M unit :=
  fun w => Returned tt (with_streams (remove_first (f_name f) (open_streams w)) w).

Definition free_buffer : M unit :=
  fun w => Returned tt (with_buffers (Nat.pred (live_buffers w)) w).

(** ** The database handle *)

Section Handle.

(** What a backend keeps behind the handle, the callback type of the
    lookups and the type behind their [void *] arguments. *)
Variables (B TSK_HDB_LOOKUP_FN void_ptr : Type).

(** A function of the table: it sees the backend's data and may
    change it, and may write the error record.  The flag
    [transaction_in_progress] is not in its reach: it is written by
    the entry points below only. *)
Definition backend_fn (Args Ret : Type) : Type :=
  B -> Args -> TSK_ERROR_INFO -> Ret * B * TSK_ERROR_INFO.

(** The arguments of [add_entry]: filename, md5, sha1, sha256 and
    comment, each of which can be NULL. *)
Definition entry_args : Type :=
  (option string * option string * option string * option string * option string)%type.

Definition lookup_str_args : Type :=
  (option string * Z * option TSK_HDB_LOOKUP_FN * option void_ptr)%type.

Definition lookup_raw_args : Type :=
  (list Byte.byte * Z * Z * option TSK_HDB_LOOKUP_FN * option void_ptr)%type.

(** [TSK_HDB_INFO].  A field of the table holding [None] is a NULL
    function pointer.  [uses_external_indexes] and [accepts_updates]
    take no argument: they are their result. *)
Record TSK_HDB_INFO : Type := {
  db_type : TSK_HDB_DBTYPE_ENUM;
  transaction_in_progress : Z;
  impl : B;
  get_db_path : option (backend_fn unit (option path));
  get_display_name : option (backend_fn unit (option string));
  uses_external_indexes : option Z;
  get_index_path : option (backend_fn TSK_HDB_HTYPE_ENUM (option path));
  open_index : option (backend_fn TSK_HDB_HTYPE_ENUM Z);
  make_index : option (backend_fn (option path) Z);
  lookup_str : option (backend_fn lookup_str_args Z);
  lookup_raw : option (backend_fn lookup_raw_args Z);
  lookup_verbose_str : option (backend_fn (string * void_ptr) Z);
  accepts_updates : option Z;
  add_entry : option (backend_fn entry_args Z);
  begin_transaction : option (backend_fn unit Z);
  commit_transaction : option (backend_fn unit Z);
  rollback_transaction : option (backend_fn unit Z);
  close_db : option (backend_fn unit unit)
}.

Definition with_impl (b : B) (h : TSK_HDB_INFO) : TSK_HDB_INFO :=
  {| db_type := db_type h; transaction_in_progress := transaction_in_progress h;
     impl := b;
     get_db_path := get_db_path h; get_display_name := get_display_name h;
     uses_external_indexes := uses_external_indexes h;
     get_index_path := get_index_path h; open_index := open_index h;
     make_index := make_index h; lookup_str := lookup_str h;
     lookup_raw := lookup_raw h; lookup_verbose_str := lookup_verbose_str h;
     accepts_updates := accepts_updates h; add_entry := add_entry h;
     begin_transaction := begin_transaction h;
     commit_transaction := commit_transaction h;
     rollback_transaction := rollback_transaction h; close_db := close_db h |}.

Definition with_transaction_in_progress (v : Z) (h : TSK_HDB_INFO) : TSK_HDB_INFO :=
  {| db_type := db_type h; transaction_in_progress := v;
     impl := impl h;
     get_db_path := get_db_path h; get_display_name := get_display_name h;
     uses_external_indexes := uses_external_indexes h;
     get_index_path := get_index_path h; open_index := open_index h;
     make_index := make_index h; lookup_str := lookup_str h;
     lookup_raw := lookup_raw h; lookup_verbose_str := lookup_verbose_str h;
     accepts_updates := accepts_updates h; add_entry := add_entry h;
     begin_transaction := begin_transaction h;
     commit_transaction := commit_transaction h;
     rollback_transaction := rollback_transaction h; close_db := close_db h |}.

(** [hdb_info->f(hdb_info, args)]: a NULL [f] faults; otherwise the
    call is logged and the backend's data and the error record are
    replaced by what [f] leaves. *)
Definition invoke {Args Ret : Type} (s : vslot) (f : option (backend_fn Args Ret))
           (h : TSK_HDB_INFO) (a : Args) : M (Ret * TSK_HDB_INFO) :=
  match f with
  | None => fault
  | Some g =>
      fun w =>
        let '(r, b, e) := g (impl h) a (tsk_error w) in
        Returned (r, with_impl b h) (with_error e (with_call (call_backend s) w))
  end.

(** [hdb_info->f()] for the two entries without argument. *)
Definition invoke0 (s : vslot) (f : option Z) : M Z :=
  match f with
  | None => fault
  | Some v => log (call_backend s) ;; ret v
  end.

End Handle.

Arguments db_type {B TSK_HDB_LOOKUP_FN void_ptr} _.
Arguments transaction_in_progress {B TSK_HDB_LOOKUP_FN void_ptr} _.
Arguments impl {B TSK_HDB_LOOKUP_FN void_ptr} _.
Arguments get_db_path {B TSK_HDB_LOOKUP_FN void_ptr} _.
Arguments get_display_name {B TSK_HDB_LOOKUP_FN void_ptr} _.
Arguments uses_external_indexes {B TSK_HDB_LOOKUP_FN void_ptr} _.
Arguments get_index_path {B TSK_HDB_LOOKUP_FN void_ptr} _.
Arguments open_index {B TSK_HDB_LOOKUP_FN void_ptr} _.
Arguments make_index {B TSK_HDB_LOOKUP_FN void_ptr} _.
Arguments lookup_str {B TSK_HDB_LOOKUP_FN void_ptr} _.
Arguments lookup_raw {B TSK_HDB_LOOKUP_FN void_ptr} _.
Arguments lookup_verbose_str {B TSK_HDB_LOOKUP_FN void_ptr} _.
Arguments accepts_updates {B TSK_HDB_LOOKUP_FN void_ptr} _.
Arguments add_entry {B TSK_HDB_LOOKUP_FN void_ptr} _.
Arguments begin_transaction {B TSK_HDB_LOOKUP_FN void_ptr} _.
Arguments commit_transaction {B TSK_HDB_LOOKUP_FN void_ptr} _.
Arguments rollback_transaction {B TSK_HDB_LOOKUP_FN void_ptr} _.
Arguments close_db {B TSK_HDB_LOOKUP_FN void_ptr} _.
Arguments with_impl {B TSK_HDB_LOOKUP_FN void_ptr} b h.
Arguments with_transaction_in_progress {B TSK_HDB_LOOKUP_FN void_ptr} v h.
Arguments invoke {B TSK_HDB_LOOKUP_FN void_ptr Args Ret} s f h a.

(** ** The caller-facing operations on a handle (lines 247-694)

    [hdb_info] is a pointer: [None] is NULL, [Some h] points at the
    struct [h].  Each operation returns its C result together with the
    struct as the call leaves it. *)

Section Operations.

Variables (B TSK_HDB_LOOKUP_FN void_ptr : Type).

Local Abbreviation HDB := (TSK_HDB_INFO B TSK_HDB_LOOKUP_FN void_ptr).

Definition tsk_hdb_get_db_path (hdb_info : option HDB) : M (option path * option HDB) :=
  match hdb_info with
  | None =>
      report TSK_ERR_HDB_ARG "tsk_hdb_get_db_path: NULL hdb_info" ;;
      ret (None, None)
  | Some h =>
      '(r, h) <- invoke slot_get_db_path (get_db_path h) h tt ;;
      ret (r, Some h)
  end.

Definition tsk_hdb_get_display_name (hdb_info : option HDB) : M (option string * option HDB) :=
  match hdb_info with
  | None =>
      report TSK_ERR_HDB_ARG "tsk_hdb_get_display_name: NULL hdb_info" ;;
      ret (None, None)
  | Some h =>
      '(r, h) <- invoke slot_get_display_name (get_display_name h) h tt ;;
      ret (r, Some h)
  end.

Definition tsk_hdb_uses_external_indexes (hdb_info : option HDB) : M (Z * option HDB) :=
  match hdb_info with
  | None =>
      report TSK_ERR_HDB_ARG "tsk_hdb_get_display_name: NULL hdb_info" ;;
      ret (0%Z, None)
  | Some h =>
      r <- invoke0 slot_uses_external_indexes (uses_external_indexes h) ;;
      ret (r, Some h)
  end.

Definition tsk_hdb_get_idx_path (hdb_info : option HDB) (htype : TSK_HDB_HTYPE_ENUM)
  : M (option path * option HDB) :=
  match hdb_info with
  | None =>
      report TSK_ERR_HDB_ARG "tsk_hdb_get_idx_path: NULL hdb_info" ;;
      ret (None, None)
  | Some h =>
      '(r, h) <- invoke slot_get_index_path (get_index_path h) h htype ;;
      ret (r, Some h)
  end.

Definition tsk_hdb_open_idx (hdb_info : option HDB) (htype : TSK_HDB_HTYPE_ENUM)
  : M (Z * option HDB) :=
  match hdb_info with
  | None =>
      report TSK_ERR_HDB_ARG "tsk_hdb_open_idx: NULL hdb_info" ;;
      ret (0%Z, None)
  | Some h =>
      '(r, h) <- invoke slot_open_index (open_index h) h htype ;;
      ret (r, Some h)
  end.

Definition tsk_hdb_has_idx (hdb_info : option HDB) (htype : TSK_HDB_HTYPE_ENUM)
  : M (Z * option HDB) :=
  match hdb_info with
  | None =>
      report TSK_ERR_HDB_ARG "tsk_hdb_has_idx: NULL hdb_info" ;;
      ret (0%Z, None)
  | Some h =>
      '(r, h) <- invoke slot_open_index (open_index h) h htype ;;
      ret (if (r =? 0)%Z then 1%Z else 0%Z, Some h)
  end.

Definition tsk_hdb_is_idx_only (hdb_info : option HDB) : M (Z * option HDB) :=
  match hdb_info with
  | None =>
      report TSK_ERR_HDB_ARG "tsk_hdb_is_idx_only: NULL hdb_info" ;;
      ret (0%Z, None)
  | Some h =>
      ret (if dbtype_eqb (db_type h) TSK_HDB_DBTYPE_IDXONLY_ID then 1%Z else 0%Z, Some h)
  end.

Definition tsk_hdb_make_index (hdb_info : option HDB) (type : option path)
  : M (Z * option HDB) :=
  match hdb_info with
  | None =>
      report TSK_ERR_HDB_ARG "tsk_hdb_make_index: NULL hdb_info" ;;
      ret (1%Z, None)
  | Some h =>
      '(r, h) <- invoke slot_make_index (make_index h) h type ;;
      ret (r, Some h)
  end.

Definition tsk_hdb_lookup_str (hdb_info : option HDB) (hash : option string) (flags : Z)
           (action : option TSK_HDB_LOOKUP_FN) (ptr : option void_ptr)
  : M (Z * option HDB) :=
  match hdb_info with
  | None =>
      report TSK_ERR_HDB_ARG "tsk_hdb_lookup_str: NULL hdb_info" ;;
      ret ((-1)%Z, None)
  | Some h =>
      '(r, h) <- invoke slot_lookup_str (lookup_str h) h (hash, flags, action, ptr) ;;
      ret (r, Some h)
  end.

Definition tsk_hdb_lookup_raw (hdb_info : option HDB) (hash : list Byte.byte) (len : Z)
           (flags : Z) (action : option TSK_HDB_LOOKUP_FN) (ptr : option void_ptr)
  : M (Z * option HDB) :=
  match hdb_info with
  | None =>
      report TSK_ERR_HDB_ARG "tsk_hdb_lookup_raw: NULL hdb_info" ;;
      ret ((-1)%Z, None)
  | Some h =>
      '(r, h) <- invoke slot_lookup_raw (lookup_raw h) h (hash, len, flags, action, ptr) ;;
      ret (r, Some h)
  end.

Definition tsk_hdb_lookup_verbose_str (hdb_info : option HDB) (hash : option string)
           (result : option void_ptr) : M (Z * option HDB) :=
  match hdb_info with
  | None =>
      report TSK_ERR_HDB_ARG "tsk_hdb_lookup_verbose_str: NULL hdb_info" ;;
      ret ((-1)%Z, None)
  | Some h =>
      match hash with
      | None =>
          report TSK_ERR_HDB_ARG "tsk_hdb_lookup_verbose_str: NULL hash" ;;
          ret ((-1)%Z, Some h)
      | Some hash =>
          match result with
          | None =>
              report TSK_ERR_HDB_ARG "tsk_hdb_lookup_verbose_str: NULL result" ;;
              ret ((-1)%Z, Some h)
          | Some result =>
              '(r, h) <- invoke slot_lookup_verbose_str (lookup_verbose_str h) h (hash, result) ;;
              ret (r, Some h)
          end
      end
  end.

Definition tsk_hdb_accepts_updates (hdb_info : option HDB) : M (Z * option HDB) :=
  let func_name := "tsk_hdb_accepts_updates" in
  match hdb_info with
  | None =>
      report TSK_ERR_HDB_ARG (func_name ++ ": NULL hdb_info") ;;
      ret (0%Z, None)
  | Some h =>
      match accepts_updates h with
      | None =>
          report TSK_ERR_HDB_ARG (func_name ++ ": NULL add_entry function ptr") ;;
          ret (0%Z, Some h)
      | Some _ =>
          r <- invoke0 slot_accepts_updates (accepts_updates h) ;;
          ret (r, Some h)
      end
  end.

Definition not_supported (func_name : string) (h : HDB) : string :=
  func_name ++ ": operation not supported for this database type (="
            ++ show_u (dbtype_code (db_type h)) ++ ")".

Definition tsk_hdb_add_entry (hdb_info : option HDB)
           (filename md5 sha1 sha256 comment : option string) : M (Z * option HDB) :=
  let func_name := "tsk_hdb_add_entry" in
  match hdb_info with
  | None =>
      report TSK_ERR_HDB_ARG (func_name ++ ": NULL hdb_info") ;;
      ret (1%Z, None)
  | Some h =>
      match add_entry h with
      | None =>
          report TSK_ERR_HDB_ARG (func_name ++ ": NULL add_entry function ptr") ;;
          ret (1%Z, Some h)
      | Some _ =>
          au <- invoke0 slot_accepts_updates (accepts_updates h) ;;
          if nonzero au then
            '(r, h) <- invoke slot_add_entry (add_entry h) h
                              (filename, md5, sha1, sha256, comment) ;;
            ret (r, Some h)
          else
            report TSK_ERR_HDB_PROC (not_supported func_name h) ;;
            ret (1%Z, Some h)
      end
  end.

Definition tsk_hdb_begin_transaction (hdb_info : option HDB) : M (Z * option HDB) :=
  let func_name := "tsk_hdb_begin_transaction" in
  match hdb_info with
  | None =>
      report TSK_ERR_HDB_ARG (func_name ++ ": NULL hdb_info") ;;
      ret (1%Z, None)
  | Some h =>
      match begin_transaction h with
      | None =>
          report TSK_ERR_HDB_ARG (func_name ++ ": NULL begin_transaction function ptr") ;;
          ret (1%Z, Some h)
      | Some _ =>
          au <- invoke0 slot_accepts_updates (accepts_updates h) ;;
          if nonzero au then
            if negb (nonzero (transaction_in_progress h)) then
              '(r, h) <- invoke slot_begin_transaction (begin_transaction h) h tt ;;
              if nonzero r then ret (1%Z, Some h)
              else ret (0%Z, Some (with_transaction_in_progress 1%Z h))
            else
              report TSK_ERR_HDB_PROC (func_name ++ ": transaction already begun") ;;
              ret (1%Z, Some h)
          else
            report TSK_ERR_HDB_PROC (not_supported func_name h) ;;
            ret (1%Z, Some h)
      end
  end.

Definition tsk_hdb_commit_transaction (hdb_info : option HDB) : M (Z * option HDB) :=
  let func_name := "tsk_hdb_commit_transaction" in
  match hdb_info with
  | None =>
      report TSK_ERR_HDB_ARG (func_name ++ ": NULL hdb_info") ;;
      ret (1%Z, None)
  | Some h =>
      match commit_transaction h with
      | None =>
          report TSK_ERR_HDB_ARG (func_name ++ ": NULL commit_transaction function ptr") ;;
          ret (1%Z, Some h)
      | Some _ =>
          au <- invoke0 slot_accepts_updates (accepts_updates h) ;;
          if nonzero au then
            if nonzero (transaction_in_progress h) then
              '(r, h) <- invoke slot_commit_transaction (commit_transaction h) h tt ;;
              if nonzero r then ret (1%Z, Some h)
              else ret (0%Z, Some (with_transaction_in_progress 0%Z h))
            else
              report TSK_ERR_HDB_PROC (func_name ++ ": transaction not begun") ;;
              ret (1%Z, Some h)
          else
            report TSK_ERR_HDB_PROC (not_supported func_name h) ;;
            ret (1%Z, Some h)
      end
  end.

(** Line 655 calls [commit_transaction], as the source has it. *)
Definition tsk_hdb_rollback_transaction (hdb_info : option HDB) : M (Z * option HDB) :=
  let func_name := "tsk_hdb_rollback_transaction" in
  match hdb_info with
  | None =>
      report TSK_ERR_HDB_ARG (func_name ++ ": NULL hdb_info") ;;
      ret (1%Z, None)
  | Some h =>
      match rollback_transaction h with
      | None =>
          report TSK_ERR_HDB_ARG (func_name ++ ": NULL rollback_transaction function ptr") ;;
          ret (1%Z, Some h)
      | Some _ =>
          au <- invoke0 slot_accepts_updates (accepts_updates h) ;;
          if nonzero au then
            if nonzero (transaction_in_progress h) then
              '(r, h) <- invoke slot_commit_transaction (commit_transaction h) h tt ;;
              if nonzero r then ret (1%Z, Some h)
              else ret (0%Z, Some (with_transaction_in_progress 0%Z h))
            else
              report TSK_ERR_HDB_PROC (func_name ++ ": transaction not begun") ;;
              ret (1%Z, Some h)
          else
            report TSK_ERR_HDB_PROC (not_supported func_name h) ;;
            ret (1%Z, Some h)
      end
  end.

(** [close_db] releases the struct: no object is left behind the
    pointer. *)
Definition tsk_hdb_close (hdb_info : option HDB) : M (unit * option HDB) :=
  match hdb_info with
  | None =>
      report TSK_ERR_HDB_ARG "tsk_hdb_close: NULL hdb_info" ;;
      ret (tt, None)
  | Some h =>
      invoke slot_close_db (close_db h) h tt ;;
      ret (tt, None)
  end.

End Operations.

(** ** The router (lines 22-37 and 87-245) *)

(** Lines 155-169 of [tsk_hdb_open]: from the caller's path and the
    fresh buffer, the flag [file_path_is_idx_path] and the buffer
    [db_path] as the copy leaves it.  [ext] is kept as the offset
    [ext - file_path]; the string at [ext] is the rest of [file_path]
    from there. *)
Definition tsk_hdb_open_db_path (file_path db_path : list TSK_TCHAR) : Z * list TSK_TCHAR :=
  let ext := TSTRRCHR file_path "-"%char in
  match ext with
  | Some off =>
      let ext_str := skipn off file_path in
      if ((TSTRLEN ext_str =? 8)%nat || (TSTRLEN ext_str =? 9)%nat)
         && ((TSTRCMP ext_str (_TSK_T "-md5.idx") =? 0)%Z
             || (TSTRCMP ext_str (_TSK_T "-sha1.idx") =? 0)%Z)
      then (1%Z, TSTRNCPY db_path file_path off)
      else (0%Z, TSTRNCPY db_path file_path (TSTRLEN file_path))
  | None => (0%Z, TSTRNCPY db_path file_path (TSTRLEN file_path))
  end.

Section Router.

Variables (B TSK_HDB_LOOKUP_FN void_ptr : Type).

Local Abbreviation HDB := (TSK_HDB_INFO B TSK_HDB_LOOKUP_FN void_ptr).

(** What [tsk_hdb_open] and [tsk_hdb_create] use and this file does not
    define: the sniff tests, the file system seen through [fopen]
    (which paths open, with which bytes, and whether what opens can
    seek), the allocator [tsk_malloc] (which hands out zero-filled blocks, or NULL
    after writing the error record), the flag bit of
    [TSK_HDB_OPEN_ENUM], and the constructors of the backends.  A
    constructor takes the stream (NULL for none) and the database path;
    it may write the error record and may close or keep streams, and
    returns the handle or NULL. *)
Definition constructor : Type :=
  TSK_ERROR_INFO -> list path -> option HDB * TSK_ERROR_INFO * list path.

Record collaborators : Type := {
  sniff : sniffers;
  hdb_fs : path -> option (list Byte.byte);
  hdb_fs_seekable : path -> bool;
  tsk_malloc_serves : nat -> bool;
  tsk_malloc_failed : TSK_ERROR_INFO -> TSK_ERROR_INFO;
  TSK_HDB_OPEN_IDXONLY : Z;
  nsrl_open : option FILE -> path -> constructor;
  md5sum_open : option FILE -> path -> constructor;
  encase_open : option FILE -> path -> constructor;
  hk_open : option FILE -> path -> constructor;
  idxonly_open : path -> constructor;
  sqlite_hdb_open : path -> constructor;
  sqlite_hdb_create_db : path -> TSK_ERROR_INFO -> Z * TSK_ERROR_INFO
}.

Variable E : collaborators.

(** The stream [fopen] returns for a path that opens. *)
Definition opened_stream (file_path : path) (data : list Byte.byte) : FILE :=
  {| f_name := file_path; f_data := data; f_pos := 0;
     f_seekable := hdb_fs_seekable E file_path |}.

(** [hdb_open_file] (lines 22-37, the [fopen] branch). *)
Definition hdb_open_file (file_path : path) : M (option FILE) :=
  log (call_hdb_open_file file_path) ;;
  match hdb_fs E file_path with
  | Some data =>
      fun w =>
        Returned (Some (opened_stream file_path data))
                 (with_streams (file_path :: open_streams w) w)
  | None => ret None
  end.

(** [tsk_malloc] of the base library: [malloc] followed by [memset] to
    0, or NULL with the error record written. *)
Definition tsk_malloc (len : nat) : M (option (list TSK_TCHAR)) :=
  if tsk_malloc_serves E len then
    fun w => Returned (Some (repeat NUL len)) (with_buffers (S (live_buffers w)) w)
  else
    fun w => Returned None (with_error (tsk_malloc_failed E (tsk_error w)) w).

Definition construct (t : TSK_HDB_DBTYPE_ENUM) (db_path : path) (ctor : constructor)
  : M (option HDB) :=
  log (call_constructor t db_path) ;;
  fun w =>
    let '(r, e, streams) := ctor (tsk_error w) (open_streams w) in
    Returned r (with_streams streams (with_error e w)).

(** [tsk_hdb_create] (lines 93-115). *)
Definition tsk_hdb_create (file_path : option path) : M Z :=
  match file_path with
  | None =>
      report TSK_ERR_HDB_ARG "tsk_hdb_create: NULL file path" ;;
      ret 1%Z
  | Some file_path =>
      let ext := TSTRRCHR file_path "."%char in
      match ext with
      | Some off =>
          let ext_str := skipn off file_path in
          if (4 <=? TSTRLEN ext_str)%nat && (TSTRCMP ext_str (_TSK_T ".kdb") =? 0)%Z then
            log (call_sqlite_hdb_create_db file_path) ;;
            fun w =>
              let '(r, e) := sqlite_hdb_create_db E file_path (tsk_error w) in
              Returned r (with_error e w)
          else
            report TSK_ERR_HDB_ARG "tsk_hdb_create: path must end in .kdb extension" ;;
            ret 1%Z
      | None =>
          report TSK_ERR_HDB_ARG "tsk_hdb_create: path must end in .kdb extension" ;;
          ret 1%Z
      end
  end.

(** [tsk_hdb_open] (lines 125-245).  The part that determines the
    database type either returns NULL early ([inl]) or goes on to the
    [switch] with [db_type] and [hDb] ([inr]). *)
Definition tsk_hdb_open (file_path : option path) (flags : Z) : M (option HDB) :=
  let func_name := "tsk_hdb_open" in
  match file_path with
  | None =>
      report TSK_ERR_HDB_ARG (func_name ++ ": NULL file path") ;;
      ret None
  | Some file_path =>
      db_path <- tsk_malloc ((TSTRLEN file_path + 1) * 1) ;;
      match db_path with
      | None => ret None
      | Some db_path =>
          let '(file_path_is_idx_path, db_path) := tsk_hdb_open_db_path file_path db_path in
          let db_path_str := c_str db_path in
          typed <-
            (if (Z.land flags (TSK_HDB_OPEN_IDXONLY E) =? 0)%Z then
               hDb <- hdb_open_file db_path_str ;;
               match hDb with
               | Some f =>
                   let '(db_type, f) := hdb_determine_db_type (sniff E) f db_path_str in
                   if dbtype_eqb TSK_HDB_DBTYPE_INVALID_ID db_type then
                     report TSK_ERR_HDB_UNKTYPE
                            (func_name ++ ": error determining hash database type of "
                                       ++ string_of_list_ascii db_path_str) ;;
                     free_buffer ;;
                     ret (inl tt)
                   else ret (inr (db_type, Some f))
               | None =>
                   if nonzero file_path_is_idx_path then
                     ret (inr (TSK_HDB_DBTYPE_IDXONLY_ID, None))
                   else
                     report TSK_ERR_HDB_OPEN
                            (func_name ++ ": failed to open "
                                       ++ string_of_list_ascii db_path_str) ;;
                     free_buffer ;;
                     ret (inl tt)
               end
             else ret (inr (TSK_HDB_DBTYPE_IDXONLY_ID, None))) ;;
          match typed with
          | inl _ => ret None
          | inr (db_type, hDb) =>
              switched <-
                match db_type with
                | TSK_HDB_DBTYPE_NSRL_ID =>
                    hdb_info <- construct db_type db_path_str (nsrl_open E hDb db_path_str) ;;
                    ret (inr hdb_info)
                | TSK_HDB_DBTYPE_MD5SUM_ID =>
                    hdb_info <- construct db_type db_path_str (md5sum_open E hDb db_path_str) ;;
                    ret (inr hdb_info)
                | TSK_HDB_DBTYPE_ENCASE_ID =>
                    hdb_info <- construct db_type db_path_str (encase_open E hDb db_path_str) ;;
                    ret (inr hdb_info)
                | TSK_HDB_DBTYPE_HK_ID =>
                    hdb_info <- construct db_type db_path_str (hk_open E hDb db_path_str) ;;
                    ret (inr hdb_info)
                | TSK_HDB_DBTYPE_IDXONLY_ID =>
                    hIdx <- hdb_open_file file_path ;;
                    match hIdx with
                    | None =>
                        report TSK_ERR_HDB_OPEN
                               (func_name ++ ": database is index only, failed to open index "
                                          ++ string_of_list_ascii db_path_str) ;;
                        free_buffer ;;
                        ret (inl tt)
                    | Some hIdx =>
                        fclose hIdx ;;
                        hdb_info <- construct db_type db_path_str (idxonly_open E db_path_str) ;;
                        ret (inr hdb_info)
                    end
                | TSK_HDB_DBTYPE_SQLITE_ID =>
                    match hDb with
                    | Some f => fclose f
                    | None => ret tt
                    end ;;
                    hdb_info <- construct db_type db_path_str (sqlite_hdb_open E db_path_str) ;;
                    ret (inr hdb_info)
                | TSK_HDB_DBTYPE_INVALID_ID => ret (inr None)
                end ;;
              match switched with
              | inl _ => ret None
              | inr hdb_info =>
                  free_buffer ;;
                  ret hdb_info
              end
          end
      end
  end.

End Router.

Arguments sniff {B TSK_HDB_LOOKUP_FN void_ptr} _.
Arguments hdb_fs {B TSK_HDB_LOOKUP_FN void_ptr} _ _.
Arguments hdb_fs_seekable {B TSK_HDB_LOOKUP_FN void_ptr} _ _.
Arguments opened_stream {B TSK_HDB_LOOKUP_FN void_ptr} E file_path data.
Arguments tsk_malloc_serves {B TSK_HDB_LOOKUP_FN void_ptr} _ _.
Arguments tsk_malloc_failed {B TSK_HDB_LOOKUP_FN void_ptr} _ _.
Arguments TSK_HDB_OPEN_IDXONLY {B TSK_HDB_LOOKUP_FN void_ptr} _.
Arguments idxonly_open {B TSK_HDB_LOOKUP_FN void_ptr} _ _ _ _.
Arguments nsrl_open {B TSK_HDB_LOOKUP_FN void_ptr} _ _ _ _ _.
Arguments md5sum_open {B TSK_HDB_LOOKUP_FN void_ptr} _ _ _ _ _.
Arguments encase_open {B TSK_HDB_LOOKUP_FN void_ptr} _ _ _ _ _.
Arguments hk_open {B TSK_HDB_LOOKUP_FN void_ptr} _ _ _ _ _.
Arguments sqlite_hdb_open {B TSK_HDB_LOOKUP_FN void_ptr} _ _ _ _.
Arguments sqlite_hdb_create_db {B TSK_HDB_LOOKUP_FN void_ptr} _ _ _.
Arguments hdb_open_file {B TSK_HDB_LOOKUP_FN void_ptr} E file_path _.
Arguments tsk_malloc {B TSK_HDB_LOOKUP_FN void_ptr} E len _.
Arguments tsk_hdb_open {B TSK_HDB_LOOKUP_FN void_ptr} E file_path flags _.
Arguments tsk_hdb_create {B TSK_HDB_LOOKUP_FN void_ptr} E file_path _.
Arguments tsk_hdb_get_db_path {B TSK_HDB_LOOKUP_FN void_ptr} hdb_info _.
Arguments tsk_hdb_get_display_name {B TSK_HDB_LOOKUP_FN void_ptr} hdb_info _.
Arguments tsk_hdb_uses_external_indexes {B TSK_HDB_LOOKUP_FN void_ptr} hdb_info _.
Arguments tsk_hdb_get_idx_path {B TSK_HDB_LOOKUP_FN void_ptr} hdb_info htype _.
Arguments tsk_hdb_open_idx {B TSK_HDB_LOOKUP_FN void_ptr} hdb_info htype _.
Arguments tsk_hdb_has_idx {B TSK_HDB_LOOKUP_FN void_ptr} hdb_info htype _.
Arguments tsk_hdb_is_idx_only {B TSK_HDB_LOOKUP_FN void_ptr} hdb_info _.
Arguments tsk_hdb_make_index {B TSK_HDB_LOOKUP_FN void_ptr} hdb_info type _.
Arguments tsk_hdb_lookup_str {B TSK_HDB_LOOKUP_FN void_ptr} hdb_info hash flags action ptr _.
Arguments tsk_hdb_lookup_raw {B TSK_HDB_LOOKUP_FN void_ptr} hdb_info hash len flags action ptr _.
Arguments tsk_hdb_lookup_verbose_str {B TSK_HDB_LOOKUP_FN void_ptr} hdb_info hash result _.
Arguments tsk_hdb_accepts_updates {B TSK_HDB_LOOKUP_FN void_ptr} hdb_info _.
Arguments tsk_hdb_add_entry {B TSK_HDB_LOOKUP_FN void_ptr} hdb_info filename md5 sha1 sha256 comment _.
Arguments tsk_hdb_begin_transaction {B TSK_HDB_LOOKUP_FN void_ptr} hdb_info _.
Arguments tsk_hdb_commit_transaction {B TSK_HDB_LOOKUP_FN void_ptr} hdb_info _.
Arguments tsk_hdb_rollback_transaction {B TSK_HDB_LOOKUP_FN void_ptr} hdb_info _.
Arguments tsk_hdb_close {B TSK_HDB_LOOKUP_FN void_ptr} hdb_info _.

(** ** Observing a run *)

Definition value_of {A X : Type} (o : outcome (A * X)) : option A :=
  match o with
  | Returned (a, _) _ => Some a
  | Fault => None
  end.

Definition world_of {A : Type} (o : outcome A) : option world :=
  match o with
  | Returned _ w => Some w
  | Fault => None
  end.

(** The error kind left behind by a run. *)
Definition errno_of {A : Type} (o : outcome A) : option TSK_ERR :=
  match o with
  | Returned _ w => t_errno (tsk_error w)
  | Fault => None
  end.

Definition errstr_of {A : Type} (o : outcome A) : string :=
  match o with
  | Returned _ w => errstr (tsk_error w)
  | Fault => ""
  end.

(** The calls a run added to the log of [w]. *)
Definition calls_since {A : Type} (w : world) (o : outcome A) : list call :=
  match o with
  | Returned _ w' => skipn (List.length (dispatched w)) (dispatched w')
  | Fault => []
  end.

(** ** Sequences of calls on one handle *)

Section Sessions.

Variables (B TSK_HDB_LOOKUP_FN void_ptr : Type).

Local Abbreviation HDB := (TSK_HDB_INFO B TSK_HDB_LOOKUP_FN void_ptr).

(** The four mutation entry points. *)
Inductive mutation : Type :=
| do_add_entry (filename md5 sha1 sha256 comment : option string)
| do_begin_transaction
| do_commit_transaction
| do_rollback_transaction.

Definition run_mutation (m : mutation) (hdb_info : option HDB) : M (Z * option HDB) :=
  match m with
  | do_add_entry filename md5 sha1 sha256 comment =>
      tsk_hdb_add_entry hdb_info filename md5 sha1 sha256 comment
  | do_begin_transaction => tsk_hdb_begin_transaction hdb_info
  | do_commit_transaction => tsk_hdb_commit_transaction hdb_info
  | do_rollback_transaction => tsk_hdb_rollback_transaction hdb_info
  end.

Definition is_set {A : Type} (f : option A) : bool :=
  match f with
  | Some _ => true
  | None => false
  end.

(** Whether the table entry that the entry point tests for NULL is set. *)
Definition own_entry_set (m : mutation) (h : HDB) : bool :=
  match m with
  | do_add_entry _ _ _ _ _ => is_set (add_entry h)
  | do_begin_transaction => is_set (begin_transaction h)
  | do_commit_transaction => is_set (commit_transaction h)
  | do_rollback_transaction => is_set (rollback_transaction h)
  end.

(** Every operation a caller can apply to an open handle. *)
Inductive api_call : Type :=
| api_mutation (m : mutation)
| api_get_db_path
| api_get_display_name
| api_uses_external_indexes
| api_get_idx_path (htype : TSK_HDB_HTYPE_ENUM)
| api_open_idx (htype : TSK_HDB_HTYPE_ENUM)
| api_has_idx (htype : TSK_HDB_HTYPE_ENUM)
| api_is_idx_only
| api_make_index (type : option path)
| api_lookup_str (hash : option string) (flags : Z)
                 (action : option TSK_HDB_LOOKUP_FN) (ptr : option void_ptr)
| api_lookup_raw (hash : list Byte.byte) (len flags : Z)
                 (action : option TSK_HDB_LOOKUP_FN) (ptr : option void_ptr)
| api_lookup_verbose_str (hash : option string) (result : option void_ptr)
| api_accepts_updates
| api_close.

Definition forget {A : Type} (c : M (A * option HDB)) : M (option HDB) :=
  '(_, h) <- c ;; ret h.

(** The struct behind the handle after the call. *)
Definition perform (c : api_call) (hdb_info : option HDB) : M (option HDB) :=
  match c with
  | api_mutation m => forget (run_mutation m hdb_info)
  | api_get_db_path => forget (tsk_hdb_get_db_path hdb_info)
  | api_get_display_name => forget (tsk_hdb_get_display_name hdb_info)
  | api_uses_external_indexes => forget (tsk_hdb_uses_external_indexes hdb_info)
  | api_get_idx_path htype => forget (tsk_hdb_get_idx_path hdb_info htype)
  | api_open_idx htype => forget (tsk_hdb_open_idx hdb_info htype)
  | api_has_idx htype => forget (tsk_hdb_has_idx hdb_info htype)
  | api_is_idx_only => forget (tsk_hdb_is_idx_only hdb_info)
  | api_make_index type => forget (tsk_hdb_make_index hdb_info type)
  | api_lookup_str hash flags action ptr =>
      forget (tsk_hdb_lookup_str hdb_info hash flags action ptr)
  | api_lookup_raw hash len flags action ptr =>
      forget (tsk_hdb_lookup_raw hdb_info hash len flags action ptr)
  | api_lookup_verbose_str hash result =>
      forget (tsk_hdb_lookup_verbose_str hdb_info hash result)
  | api_accepts_updates => forget (tsk_hdb_accepts_updates hdb_info)
  | api_close => forget (tsk_hdb_close hdb_info)
  end.

(** [reachable h0 w0 h w]: a caller holding the handle [h0] in the
    world [w0] can bring it to [h] in [w] by calls of the API. *)
Inductive reachable (h0 : HDB) (w0 : world) : HDB -> world -> Prop :=
| reachable_start : reachable h0 w0 h0 w0
| reachable_step (h : HDB) (w : world) (c : api_call) (h' : HDB) (w' : world) :
    reachable h0 w0 h w ->
    perform c (Some h) w = Returned (Some h') w' ->
    reachable h0 w0 h' w'.

End Sessions.

Arguments run_mutation {B TSK_HDB_LOOKUP_FN void_ptr} m hdb_info _.
Arguments own_entry_set {B TSK_HDB_LOOKUP_FN void_ptr} m h.
Arguments api_mutation {TSK_HDB_LOOKUP_FN void_ptr} m.
Arguments perform {B TSK_HDB_LOOKUP_FN void_ptr} c hdb_info _.
Arguments reachable {B TSK_HDB_LOOKUP_FN void_ptr} h0 w0 _ _.
Arguments reachable_start {B TSK_HDB_LOOKUP_FN void_ptr} h0 w0.
Arguments reachable_step {B TSK_HDB_LOOKUP_FN void_ptr} h0 w0 h w c h' w' _ _.

(** ** The detector's verdicts in the words of the specification *)

(** A text-format test succeeds on a stream when it accepts the stream
    after the rewind that precedes it: on a stream that can seek, the
    file read from its start. *)
Definition succeeds (t : sniff_test) (hDb : FILE) : bool :=
  nonzero (fst (t (rewind_stream hDb))).

(** The identifiers of the text formats whose test succeeds.  Each test
    is asked about the stream as the test before it left it; on a
    stream that can seek the rewind makes that the same file, read from
    its start, for all four. *)
Definition text_matches (S : sniffers) (hDb : FILE) : list TSK_HDB_DBTYPE_ENUM :=
  let after_sqlite := snd (run_test (sqlite_hdb_is_sqlite_file S) hDb) in
  let after_nsrl := snd (run_test (nsrl_test S) (rewind_stream after_sqlite)) in
  let after_md5sum := snd (run_test (md5sum_test S) (rewind_stream after_nsrl)) in
  let after_encase := snd (run_test (encase_test S) (rewind_stream after_md5sum)) in
  (if succeeds (nsrl_test S) after_sqlite then [TSK_HDB_DBTYPE_NSRL_ID] else [])
  ++ (if succeeds (md5sum_test S) after_nsrl then [TSK_HDB_DBTYPE_MD5SUM_ID] else [])
  ++ (if succeeds (encase_test S) after_md5sum then [TSK_HDB_DBTYPE_ENCASE_ID] else [])
  ++ (if succeeds (hk_test S) after_encase then [TSK_HDB_DBTYPE_HK_ID] else []).

(** Two streams on the same file: same name, same bytes, same ability
    to seek; only the offset may differ. *)
Definition same_file (a b : FILE) : Prop :=
  f_name b = f_name a /\ f_data b = f_data a /\ f_seekable b = f_seekable a.

(** A path that carries one of the two index suffixes after [base]. *)
Definition idx_suffixed (file_path base : path) : Prop :=
  file_path = base ++ _TSK_T "-md5.idx" \/ file_path = base ++ _TSK_T "-sha1.idx".

(** The database path [tsk_hdb_open] works with: the contents, read as
    a C string, of the zero-filled buffer of [TSTRLEN file_path + 1]
    cells after the copy. *)
Definition db_path_of (file_path : path) : path :=
  c_str (snd (tsk_hdb_open_db_path file_path (repeat NUL ((TSTRLEN file_path + 1) * 1)))).

(** [tsk_hdb_open] returned NULL having reported an error of kind [c],
    after the calls [calls], leaving the streams [streams] open and as
    many live buffers as before. *)
Definition open_failed {A : Type} (c : TSK_ERR) (calls : list call) (streams : list path)
           (w : world) (o : outcome (option A)) : Prop :=
  exists w',
    o = Returned None w'
    /\ t_errno (tsk_error w') = Some c
    /\ dispatched w' = dispatched w ++ calls
    /\ open_streams w' = streams
    /\ live_buffers w' = live_buffers w.

(** [tsk_hdb_open] tried the database at [base], opened and closed the
    index [file_path], and returned what the index-only constructor
    made for [base]. *)
Definition index_only_opened {B TSK_HDB_LOOKUP_FN void_ptr : Type}
           (E : collaborators B TSK_HDB_LOOKUP_FN void_ptr) (base file_path : path)
           (w : world) (o : outcome (option (TSK_HDB_INFO B TSK_HDB_LOOKUP_FN void_ptr))) : Prop :=
  o = let '(r, e, streams) := idxonly_open E base (tsk_error w) (open_streams w) in
      Returned r {| tsk_error := e;
                    dispatched := dispatched w
                                  ++ [call_hdb_open_file base; call_hdb_open_file file_path;
                                      call_constructor TSK_HDB_DBTYPE_IDXONLY_ID base];
                    open_streams := streams;
                    live_buffers := live_buffers w |}.

(** The struct behind the handle when the run returns. *)
Definition handle_of {A X : Type} (o : outcome (A * option X)) : option X :=
  match o with
  | Returned (_, h) _ => h
  | Fault => None
  end.

(** An entry point refused the call: it returned 1 having reported an
    error of kind [c], made the calls [calls] into the backend and left
    the struct as it was. *)
Definition refused {B TSK_HDB_LOOKUP_FN void_ptr : Type} (c : TSK_ERR) (calls : list call)
           (h : TSK_HDB_INFO B TSK_HDB_LOOKUP_FN void_ptr) (w : world)
           (o : outcome (Z * option (TSK_HDB_INFO B TSK_HDB_LOOKUP_FN void_ptr))) : Prop :=
  exists w',
    o = Returned (1%Z, Some h) w'
    /\ t_errno (tsk_error w') = Some c
    /\ dispatched w' = dispatched w ++ calls.

(** How a mutation entry point refuses: with an argument error and no
    call at all when its own table entry is NULL, with a procedure
    error after asking [accepts_updates] otherwise. *)
Definition refusal_kind {B TSK_HDB_LOOKUP_FN void_ptr : Type} (m : mutation)
           (h : TSK_HDB_INFO B TSK_HDB_LOOKUP_FN void_ptr) : TSK_ERR :=
  if own_entry_set m h then TSK_ERR_HDB_PROC else TSK_ERR_HDB_ARG.

Definition refusal_calls {B TSK_HDB_LOOKUP_FN void_ptr : Type} (m : mutation)
           (h : TSK_HDB_INFO B TSK_HDB_LOOKUP_FN void_ptr) : list call :=
  if own_entry_set m h then [call_backend slot_accepts_updates] else [].

(** A run on a NULL handle that reports an argument error whose text
    starts with [name], and calls nothing. *)
Definition names_itself {A : Type} (name : string) (w : world) (o : outcome A) : Prop :=
  exists a w',
    o = Returned a w'
    /\ t_errno (tsk_error w') = Some TSK_ERR_HDB_ARG
    /\ String.prefix name (errstr (tsk_error w')) = true
    /\ dispatched w' = dispatched w.

(** ** Concrete collaborators, for running the code

    Stand-ins for the parts that live in other files, small enough to
    evaluate: signature tests that compare the first bytes of the
    stream with a fixed header, a file system with a handful of files,
    and a backend that keeps a journal of hashes. *)

Fixpoint bytes_eqb (a b : list Byte.byte) : bool :=
  match a, b with
  | [], [] => true
  | x :: a', y :: b' => Byte.eqb x y && bytes_eqb a' b'
  | _, _ => false
  end.

(** Reads as many bytes as the header has, from the current offset. *)
Definition magic_test (magic : string) : sniff_test :=
  fun hDb =>
    let want := list_byte_of_string magic in
    let got := firstn (List.length want) (skipn (f_pos hDb) (f_data hDb)) in
    (if bytes_eqb got want then 1%Z else 0%Z, f_pos hDb + List.length got).

Definition dquote : string := String (ascii_of_nat 34) "".

Definition sample_sniffers : sniffers :=
  {| sqlite_hdb_is_sqlite_file := magic_test "SQLite format 3";
     nsrl_test := magic_test (dquote ++ "SHA-1" ++ dquote);
     md5sum_test := magic_test "MD5 (";
     encase_test := magic_test "HASH";
     hk_test := magic_test (dquote ++ "file_id" ++ dquote) |}.

(** Two text tests whose headers overlap. *)
Definition overlapping_sniffers : sniffers :=
  {| sqlite_hdb_is_sqlite_file := magic_test "SQLite format 3";
     nsrl_test := magic_test (dquote ++ "SHA-1" ++ dquote);
     md5sum_test := magic_test "MD5 (";
     encase_test := magic_test "HASH";
     hk_test := magic_test "HASHKEEPER" |}.

Definition stream_of (name data : string) : FILE :=
  {| f_name := _TSK_T name; f_data := list_byte_of_string data; f_pos := 0;
     f_seekable := true |}.

(** A FIFO that delivers an md5sum listing. *)
Definition fifo_stream : FILE :=
  {| f_name := _TSK_T "hashes.fifo";
     f_data := list_byte_of_string "MD5 (a.txt) = d41d8cd98f00b204e9800998ecf8427e";
     f_pos := 0;
     f_seekable := false |}.

Definition kdb_stream : FILE := stream_of "hashes.kdb" "SQLite format 3 and pages".
Definition md5sum_stream : FILE := stream_of "known.md5" "MD5 (a.txt) = d41d8cd98f00b204e9800998ecf8427e".
Definition notes_stream : FILE := stream_of "notes.txt" "hello".
Definition hashkeeper_stream : FILE := stream_of "both.txt" "HASHKEEPER list".

(** The journal backend. *)
Record journal : Type := {
  stored : list string;
  pending : list string
}.

Definition journal_fn (Args Ret : Type) : Type := backend_fn journal Args Ret.

Definition journal_begin : journal_fn unit Z := fun b _ e => (0%Z, b, e).

Definition journal_add : journal_fn entry_args Z :=
  fun b a e =>
    let '(_, md5, _, _, _) := a in
    match md5 with
    | Some m => (0%Z, {| stored := stored b; pending := pending b ++ [m] |}, e)
    | None => (1%Z, b, e)
    end.

Definition journal_commit : journal_fn unit Z :=
  fun b _ e => (0%Z, {| stored := stored b ++ pending b; pending := [] |}, e).

Definition journal_rollback : journal_fn unit Z :=
  fun b _ e => (0%Z, {| stored := stored b; pending := [] |}, e).

Definition journal_lookup_str : journal_fn (lookup_str_args unit unit) Z :=
  fun b a e =>
    let '(hash, _, _, _) := a in
    match hash with
    | Some x => (if existsb (String.eqb x) (stored b) then 1%Z else 0%Z, b, e)
    | None => ((-1)%Z, b, e)
    end.

(** No index can be opened. *)
Definition journal_open_index : journal_fn TSK_HDB_HTYPE_ENUM Z :=
  fun b _ e => (1%Z, b, e).

Definition journal_handle (t : TSK_HDB_DBTYPE_ENUM) (external updates tip : Z) (b : journal)
  : TSK_HDB_INFO journal unit unit :=
  {| db_type := t;
     transaction_in_progress := tip;
     impl := b;
     get_db_path := Some (fun b _ e => (Some (_TSK_T "hashes.kdb"), b, e));
     get_display_name := Some (fun b _ e => (Some "hashes", b, e));
     uses_external_indexes := Some external;
     get_index_path := Some (fun b _ e => (None, b, e));
     open_index := Some journal_open_index;
     make_index := Some (fun b _ e => (1%Z, b, e));
     lookup_str := Some journal_lookup_str;
     lookup_raw := Some (fun b _ e => ((-1)%Z, b, e));
     lookup_verbose_str := Some (fun b _ e => ((-1)%Z, b, e));
     accepts_updates := Some updates;
     add_entry := Some journal_add;
     begin_transaction := Some journal_begin;
     commit_transaction := Some journal_commit;
     rollback_transaction := Some journal_rollback;
     close_db := Some (fun b _ e => (tt, b, e)) |}.

Definition empty_journal : journal := {| stored := []; pending := [] |}.

(** An updatable store, with and without a transaction begun. *)
Definition kdb_idle : TSK_HDB_INFO journal unit unit :=
  journal_handle TSK_HDB_DBTYPE_SQLITE_ID 0 1 0 empty_journal.

Definition kdb_in_transaction : TSK_HDB_INFO journal unit unit :=
  journal_handle TSK_HDB_DBTYPE_SQLITE_ID 0 1 1
                 {| stored := []; pending := ["d41d8cd98f00b204e9800998ecf8427e"] |}.

(** A text database: external index, no updates. *)
Definition text_handle : TSK_HDB_INFO journal unit unit :=
  journal_handle TSK_HDB_DBTYPE_MD5SUM_ID 1 0 0 empty_journal.

(** A text database whose table leaves the four mutation entries NULL. *)
Definition bare_text_handle : TSK_HDB_INFO journal unit unit :=
  {| db_type := TSK_HDB_DBTYPE_MD5SUM_ID;
     transaction_in_progress := 0;
     impl := empty_journal;
     get_db_path := get_db_path text_handle;
     get_display_name := get_display_name text_handle;
     uses_external_indexes := Some 1%Z;
     get_index_path := get_index_path text_handle;
     open_index := open_index text_handle;
     make_index := make_index text_handle;
     lookup_str := lookup_str text_handle;
     lookup_raw := lookup_raw text_handle;
     lookup_verbose_str := lookup_verbose_str text_handle;
     accepts_updates := Some 0%Z;
     add_entry := None;
     begin_transaction := None;
     commit_transaction := None;
     rollback_transaction := None;
     close_db := close_db text_handle |}.

Definition quiet : world :=
  {| tsk_error := {| t_errno := None; errstr := "" |};
     dispatched := []; open_streams := []; live_buffers := 0 |}.

(** The world after a refused begin on the text database. *)
Definition after_refused_begin : world :=
  match tsk_hdb_begin_transaction (Some text_handle) quiet with
  | Returned _ w => w
  | Fault => quiet
  end.

Definition path_eqb (p q : path) : bool :=
  if list_eq_dec Ascii.ascii_dec p q then true else false.

Fixpoint lookup_file (fs : list (string * string)) (p : path) : option (list Byte.byte) :=
  match fs with
  | [] => None
  | (name, data) :: rest =>
      if path_eqb (_TSK_T name) p then Some (list_byte_of_string data) else lookup_file rest p
  end.

(** The index [set-md5.idx] is there; the list [set] it was built from
    is not. *)
Definition sample_files : list (string * string) :=
  [ ("hashes.kdb", "SQLite format 3 and pages");
    ("known.md5", "MD5 (a.txt) = d41d8cd98f00b204e9800998ecf8427e");
    ("notes.txt", "hello");
    ("set-md5.idx", "00000000000000000000000000000000000000000|md5") ].

Definition sample_constructor (t : TSK_HDB_DBTYPE_ENUM) : constructor journal unit unit :=
  fun e streams =>
    (Some (journal_handle t
             (if dbtype_eqb t TSK_HDB_DBTYPE_SQLITE_ID then 0%Z else 1%Z)
             (if dbtype_eqb t TSK_HDB_DBTYPE_SQLITE_ID then 1%Z else 0%Z)
             0%Z empty_journal),
     e, streams).

Definition sample_collaborators : collaborators journal unit unit :=
  {| sniff := sample_sniffers;
     hdb_fs := lookup_file sample_files;
     hdb_fs_seekable := fun _ => true;
     tsk_malloc_serves := fun _ => true;
     tsk_malloc_failed := fun e => e;
     TSK_HDB_OPEN_IDXONLY := 1%Z;
     nsrl_open := fun _ _ => sample_constructor TSK_HDB_DBTYPE_NSRL_ID;
     md5sum_open := fun _ _ => sample_constructor TSK_HDB_DBTYPE_MD5SUM_ID;
     encase_open := fun _ _ => sample_constructor TSK_HDB_DBTYPE_ENCASE_ID;
     hk_open := fun _ _ => sample_constructor TSK_HDB_DBTYPE_HK_ID;
     idxonly_open := fun _ => sample_constructor TSK_HDB_DBTYPE_IDXONLY_ID;
     sqlite_hdb_open := fun _ => sample_constructor TSK_HDB_DBTYPE_SQLITE_ID;
     sqlite_hdb_create_db := fun _ e => (0%Z, e) |}.

(** ** Vocabulary for the further properties *)

(** The constructor the [switch] of [tsk_hdb_open] picks for a text
    format; the other identifiers have none. *)
Definition text_constructor {B TSK_HDB_LOOKUP_FN void_ptr : Type}
           (E : collaborators B TSK_HDB_LOOKUP_FN void_ptr) (t : TSK_HDB_DBTYPE_ENUM)
  : option (option FILE -> path -> constructor B TSK_HDB_LOOKUP_FN void_ptr) :=
  match t with
  | TSK_HDB_DBTYPE_NSRL_ID => Some (nsrl_open E)
  | TSK_HDB_DBTYPE_MD5SUM_ID => Some (md5sum_open E)
  | TSK_HDB_DBTYPE_ENCASE_ID => Some (encase_open E)
  | TSK_HDB_DBTYPE_HK_ID => Some (hk_open E)
  | _ => None
  end.

(** [tsk_hdb_open] made the calls [calls], ran the constructor [ctor]
    with the streams [streams] open, freed its buffer and returned what
    the constructor returned. *)
Definition handed_over {B TSK_HDB_LOOKUP_FN void_ptr : Type}
           (ctor : constructor B TSK_HDB_LOOKUP_FN void_ptr) (calls : list call)
           (streams : list path) (w : world)
           (o : outcome (option (TSK_HDB_INFO B TSK_HDB_LOOKUP_FN void_ptr))) : Prop :=
  o = let '(r, e, left_open) := ctor (tsk_error w) streams in
      Returned r {| tsk_error := e;
                    dispatched := dispatched w ++ calls;
                    open_streams := left_open;
                    live_buffers := live_buffers w |}.

(** Two structs with the same type tag and the same function table. *)
Definition same_table {B TSK_HDB_LOOKUP_FN void_ptr : Type}
           (h h' : TSK_HDB_INFO B TSK_HDB_LOOKUP_FN void_ptr) : Prop :=
  db_type h' = db_type h
  /\ get_db_path h' = get_db_path h
  /\ get_display_name h' = get_display_name h
  /\ uses_external_indexes h' = uses_external_indexes h
  /\ get_index_path h' = get_index_path h
  /\ open_index h' = open_index h
  /\ make_index h' = make_index h
  /\ lookup_str h' = lookup_str h
  /\ lookup_raw h' = lookup_raw h
  /\ lookup_verbose_str h' = lookup_verbose_str h
  /\ accepts_updates h' = accepts_updates h
  /\ add_entry h' = add_entry h
  /\ begin_transaction h' = begin_transaction h
  /\ commit_transaction h' = commit_transaction h
  /\ rollback_transaction h' = rollback_transaction h
  /\ close_db h' = close_db h.

(** No entry of the table is NULL. *)
Definition populated {B TSK_HDB_LOOKUP_FN void_ptr : Type}
           (h : TSK_HDB_INFO B TSK_HDB_LOOKUP_FN void_ptr) : bool :=
  is_set (get_db_path h) && is_set (get_display_name h)
  && is_set (uses_external_indexes h) && is_set (get_index_path h)
  && is_set (open_index h) && is_set (make_index h)
  && is_set (lookup_str h) && is_set (lookup_raw h)
  && is_set (lookup_verbose_str h) && is_set (accepts_updates h)
  && is_set (add_entry h) && is_set (begin_transaction h)
  && is_set (commit_transaction h) && is_set (rollback_transaction h)
  && is_set (close_db h).

(** The three calls of the transaction manager. *)
Definition is_transaction_call {TSK_HDB_LOOKUP_FN void_ptr : Type}
           (c : api_call TSK_HDB_LOOKUP_FN void_ptr) : bool :=
  match c with
  | api_mutation do_begin_transaction => true
  | api_mutation do_commit_transaction => true
  | api_mutation do_rollback_transaction => true
  | _ => false
  end.

(** A journal backend whose commit fails. *)
Definition journal_commit_fails : journal_fn unit Z :=
  fun b _ e => (1%Z, b, tsk_error_set_errstr "journal: commit failed" e).

Definition kdb_failing_commit : TSK_HDB_INFO journal unit unit :=
  {| db_type := TSK_HDB_DBTYPE_SQLITE_ID;
     transaction_in_progress := 1;
     impl := {| stored := []; pending := ["d41d8cd98f00b204e9800998ecf8427e"] |};
     get_db_path := get_db_path kdb_idle;
     get_display_name := get_display_name kdb_idle;
     uses_external_indexes := Some 0%Z;
     get_index_path := get_index_path kdb_idle;
     open_index := open_index kdb_idle;
     make_index := make_index kdb_idle;
     lookup_str := lookup_str kdb_idle;
     lookup_raw := lookup_raw kdb_idle;
     lookup_verbose_str := lookup_verbose_str kdb_idle;
     accepts_updates := Some 1%Z;
     add_entry := add_entry kdb_idle;
     begin_transaction := begin_transaction kdb_idle;
     commit_transaction := Some journal_commit_fails;
     rollback_transaction := rollback_transaction kdb_idle;
     close_db := close_db kdb_idle |}.

(** The store and the world after an accepted begin on the idle store. *)
Definition kdb_begun : TSK_HDB_INFO journal unit unit :=
  journal_handle TSK_HDB_DBTYPE_SQLITE_ID 0 1 1 empty_journal.

Definition after_begin : world :=
  match tsk_hdb_begin_transaction (Some kdb_idle) quiet with
  | Returned _ w => w
  | Fault => quiet
  end.

(** * Properties *)

(** ** The format detector *)


Lemma nonzero_true_iff (v : Z) : nonzero v = true <-> v <> 0%Z.
Proof.
  unfold nonzero. destruct (Z.eqb_spec v 0); simpl; split; congruence.
Qed.

(** A rewind on a stream that can seek forgets where the stream was. *)
Lemma rewind_stream_seek_to (hDb : FILE) (off : nat) :
  f_seekable hDb = true -> rewind_stream (seek_to hDb off) = rewind_stream hDb.
Proof.
  intros Hseek. unfold rewind_stream, seek_to; simpl. rewrite Hseek. reflexivity.
Qed.

Lemma rewind_stream_again (hDb : FILE) (off : nat) :
  f_seekable hDb = true ->
  rewind_stream (seek_to (rewind_stream hDb) off) = rewind_stream hDb.
Proof.
  intros Hseek. unfold rewind_stream, seek_to; simpl. rewrite Hseek. simpl.
  rewrite ?Hseek. reflexivity.
Qed.

(** On a stream that can seek, the stream that comes back is the
    stream that went in, rewound. *)
Lemma hdb_determine_db_type_stream (S : sniffers) (hDb : FILE) (db_path : path) :
  f_seekable hDb = true ->
  snd (hdb_determine_db_type S hDb db_path) = rewind_stream hDb.
Proof.
  intros Hseek.
  unfold hdb_determine_db_type, run_test; cbn [fst snd].
  repeat rewrite (rewind_stream_seek_to hDb) by exact Hseek.
  repeat rewrite (rewind_stream_again hDb) by exact Hseek.
  repeat match goal with
         | |- context [if ?c then _ else _] => destruct c
         end; reflexivity.
Qed.

(** A rewind and a read leave the same file behind the stream. *)
Lemma same_file_refl (a : FILE) : same_file a a.
Proof. unfold same_file. repeat split. Qed.

Lemma same_file_rewind_stream (a b : FILE) : same_file a b -> same_file a (rewind_stream b).
Proof.
  unfold same_file, rewind_stream. intros (Hname & Hdata & Hseek).
  destruct (f_seekable b) eqn:Hb; repeat split; simpl; rewrite ?Hb; assumption.
Qed.

Lemma same_file_seek_to (a b : FILE) (off : nat) : same_file a b -> same_file a (seek_to b off).
Proof. unfold same_file, seek_to. simpl. tauto. Qed.

(** Whether the stream can seek or not, the detector returns the stream
    of the same file, open under the same name. *)
Lemma hdb_determine_db_type_same_file (S : sniffers) (hDb : FILE) (db_path : path) :
  same_file hDb (snd (hdb_determine_db_type S hDb db_path)).
Proof.
  unfold hdb_determine_db_type, run_test; cbn [fst snd].
  repeat match goal with
         | |- context [if ?c then _ else _] => destruct c
         end;
    cbn [fst snd];
    repeat (apply same_file_rewind_stream || apply same_file_seek_to);
    apply same_file_refl.
Qed.

(** The verdict in closed form: the relational-store test decides
    first; otherwise a single matching text format wins and anything
    else is unknown. *)
Lemma hdb_determine_db_type_verdict (S : sniffers) (hDb : FILE) (db_path : path) :
  fst (hdb_determine_db_type S hDb db_path) =
  if nonzero (fst (sqlite_hdb_is_sqlite_file S hDb)) then TSK_HDB_DBTYPE_SQLITE_ID
  else match text_matches S hDb with
       | [t] => t
       | _ => TSK_HDB_DBTYPE_INVALID_ID
       end.
Proof.
  unfold hdb_determine_db_type, text_matches, succeeds, run_test; cbn [fst snd].
  destruct (nonzero (fst (sqlite_hdb_is_sqlite_file S hDb))); [reflexivity|].
  destruct (nonzero (fst (nsrl_test S _)));
    destruct (nonzero (fst (md5sum_test S _)));
    destruct (nonzero (fst (encase_test S _)));
    destruct (nonzero (fst (hk_test S _))); reflexivity.
Qed.

(** On a stream that can seek, the text tests are all asked about the
    file read from its start. *)
Lemma text_matches_seekable (S : sniffers) (hDb : FILE) :
  f_seekable hDb = true ->
  text_matches S hDb
  = (if succeeds (nsrl_test S) hDb then [TSK_HDB_DBTYPE_NSRL_ID] else [])
    ++ (if succeeds (md5sum_test S) hDb then [TSK_HDB_DBTYPE_MD5SUM_ID] else [])
    ++ (if succeeds (encase_test S) hDb then [TSK_HDB_DBTYPE_ENCASE_ID] else [])
    ++ (if succeeds (hk_test S) hDb then [TSK_HDB_DBTYPE_HK_ID] else []).
Proof.
  intros Hseek.
  unfold text_matches, succeeds, run_test; cbn [fst snd].
  repeat rewrite (rewind_stream_seek_to hDb) by exact Hseek.
  repeat rewrite (rewind_stream_again hDb) by exact Hseek.
  reflexivity.
Qed.

(** C7, as amended: on a stream that can seek, the detector leaves the
    stream at offset 0, the start of the file, on every exit path,
    with the file itself untouched. *)
Theorem hdb_determine_db_type_rewinds (S : sniffers) (hDb : FILE) (db_path : path) :
  f_seekable hDb = true ->
  f_pos (snd (hdb_determine_db_type S hDb db_path)) = 0
  /\ f_data (snd (hdb_determine_db_type S hDb db_path)) = f_data hDb
  /\ f_name (snd (hdb_determine_db_type S hDb db_path)) = f_name hDb.
Proof.
  intros Hseek. rewrite hdb_determine_db_type_stream by exact Hseek.
  unfold rewind_stream. rewrite Hseek. repeat split.
Qed.

Lemma hdb_determine_db_type_rewinds_witness :
  f_pos (snd (hdb_determine_db_type sample_sniffers md5sum_stream (f_name md5sum_stream))) = 0
  /\ f_data (snd (hdb_determine_db_type sample_sniffers md5sum_stream (f_name md5sum_stream)))
     = f_data md5sum_stream
  /\ f_name (snd (hdb_determine_db_type sample_sniffers md5sum_stream (f_name md5sum_stream)))
     = f_name md5sum_stream.
Proof.
  apply (hdb_determine_db_type_rewinds sample_sniffers md5sum_stream (f_name md5sum_stream)).
  reflexivity.
Defined.

(** C7 as stated does not hold on a stream that cannot seek: the seeks
    fail, their result is not looked at, and the detector returns with
    the FIFO past the bytes the tests have consumed. *)
Lemma hdb_determine_db_type_fifo_not_rewound :
  ~ f_pos (snd (hdb_determine_db_type sample_sniffers fifo_stream (f_name fifo_stream))) = 0.
Proof.
  vm_compute. discriminate.
Qed.




(** When the relational-store test succeeds, the text tests are not
    consulted. *)
Lemma hdb_determine_db_type_sqlite (S : sniffers) (hDb : FILE) (db_path : path) :
  fst (sqlite_hdb_is_sqlite_file S hDb) <> 0%Z ->
  fst (hdb_determine_db_type S hDb db_path) = TSK_HDB_DBTYPE_SQLITE_ID.
Proof.
  intros H. rewrite hdb_determine_db_type_verdict.
  apply nonzero_true_iff in H. rewrite H. reflexivity.
Qed.

(** A file that satisfies two text grammars at once is rejected. *)
Example overlapping_headers_rejected :
  text_matches overlapping_sniffers hashkeeper_stream
  = [TSK_HDB_DBTYPE_ENCASE_ID; TSK_HDB_DBTYPE_HK_ID]
  /\ fst (hdb_determine_db_type overlapping_sniffers hashkeeper_stream (f_name hashkeeper_stream))
     = TSK_HDB_DBTYPE_INVALID_ID.
Proof. split; reflexivity. Qed.

(** ** C strings *)

Lemma TSTRCMP_refl (a : list TSK_TCHAR) : TSTRCMP a a = 0%Z.
Proof.
  induction a as [|x a IH]; simpl; [reflexivity|].
  rewrite Ascii.eqb_refl. exact IH.
Qed.

Lemma TSTRCMP_zero (a b : list TSK_TCHAR) : TSTRCMP a b = 0%Z -> a = b.
Proof.
  revert b. induction a as [|x a IH]; intros [|y b] H; simpl in H;
    try reflexivity; try discriminate H.
  destruct (Ascii.eqb_spec x y) as [->|Hxy].
  - f_equal. apply IH. exact H.
  - destruct (nat_of_ascii x <? nat_of_ascii y)%nat; discriminate H.
Qed.

Lemma TSTRRCHR_absent (s : list TSK_TCHAR) (c : TSK_TCHAR) :
  ~ In c s -> TSTRRCHR s c = None.
Proof.
  induction s as [|x s IH]; simpl; intros H; [reflexivity|].
  rewrite IH by tauto.
  destruct (Ascii.eqb_spec x c) as [->|_]; [exfalso; tauto | reflexivity].
Qed.

(** The last occurrence: nothing after it is [c]. *)
Lemma TSTRRCHR_last (b r : list TSK_TCHAR) (c : TSK_TCHAR) :
  ~ In c r -> TSTRRCHR (b ++ c :: r) c = Some (List.length b).
Proof.
  intros Hr. induction b as [|x b IH]; simpl.
  - rewrite (TSTRRCHR_absent r c Hr), Ascii.eqb_refl. reflexivity.
  - rewrite IH. reflexivity.
Qed.

Lemma TSTRRCHR_in_range (s : list TSK_TCHAR) (c : TSK_TCHAR) (k : nat) :
  TSTRRCHR s c = Some k -> k < List.length s.
Proof.
  revert k. induction s as [|x s IH]; simpl; intros k H; [discriminate H|].
  destruct (TSTRRCHR s c) as [j|].
  - injection H as <-. specialize (IH j eq_refl). lia.
  - destruct (Ascii.eqb x c); [injection H as <-; lia | discriminate H].
Qed.

Lemma cstring_cons (c : TSK_TCHAR) (s : list TSK_TCHAR) :
  cstring (c :: s) <-> c <> NUL /\ cstring s.
Proof.
  unfold cstring; simpl. rewrite andb_true_iff, negb_true_iff.
  destruct (Ascii.eqb_spec c NUL); split; intros [H1 H2]; split; congruence.
Qed.

Lemma cstring_firstn (n : nat) (s : list TSK_TCHAR) : cstring s -> cstring (firstn n s).
Proof.
  revert n. induction s as [|c s IH]; intros [|n] H; simpl; try reflexivity.
  apply cstring_cons in H as [Hc Hs]. apply cstring_cons. split; [exact Hc | apply IH, Hs].
Qed.

Lemma cstring_app_l (s t : list TSK_TCHAR) : cstring (s ++ t) -> cstring s.
Proof.
  induction s as [|c s IH]; simpl; intros H; [reflexivity|].
  apply cstring_cons in H as [Hc Hs]. apply cstring_cons. split; [exact Hc | apply IH, Hs].
Qed.

(** A buffer whose first NUL comes right after [s] reads as [s]. *)
Lemma c_str_terminated (s t : list TSK_TCHAR) :
  cstring s -> c_str (s ++ NUL :: t) = s.
Proof.
  induction s as [|c s IH]; simpl; intros H; [reflexivity|].
  apply cstring_cons in H as [Hc Hs].
  destruct (Ascii.eqb_spec c NUL); [contradiction|].
  f_equal. apply IH, Hs.
Qed.

Lemma skipn_repeat_NUL (n m : nat) : skipn n (repeat NUL m) = repeat NUL (m - n).
Proof.
  revert m. induction n as [|n IH]; intros [|m]; simpl; try reflexivity. apply IH.
Qed.

(** Copying the first [n] characters of [s] into a zero-filled buffer
    with room for all of [s] and a terminator leaves a buffer that
    reads as those [n] characters. *)
Lemma c_str_TSTRNCPY_zeroed (s : list TSK_TCHAR) (n : nat) :
  cstring s -> n <= TSTRLEN s ->
  c_str (TSTRNCPY (repeat NUL ((TSTRLEN s + 1) * 1)) s n) = firstn n s.
Proof.
  unfold TSTRNCPY, TSTRLEN. intros Hs Hn.
  rewrite firstn_app.
  replace (n - List.length s) with 0 by lia. simpl firstn at 2. rewrite app_nil_r.
  rewrite skipn_repeat_NUL.
  replace ((List.length s + 1) * 1 - n) with (S (List.length s - n)) by lia.
  simpl repeat. apply c_str_terminated, cstring_firstn, Hs.
Qed.

(** ** The database path of [tsk_hdb_open] *)

Lemma skipn_length_app {A : Type} (b s : list A) : skipn (List.length b) (b ++ s) = s.
Proof.
  induction b as [|x b IH]; simpl; [reflexivity | exact IH].
Qed.

Lemma firstn_length_app (b s : list TSK_TCHAR) : firstn (List.length b) (b ++ s) = b.
Proof.
  induction b as [|x b IH]; simpl; [destruct s; reflexivity | rewrite IH; reflexivity].
Qed.

(** On a path with an index suffix the flag is set and the characters
    in front of the suffix are copied. *)
Lemma tsk_hdb_open_db_path_suffixed (file_path base buf : list TSK_TCHAR) :
  idx_suffixed file_path base ->
  tsk_hdb_open_db_path file_path buf = (1%Z, TSTRNCPY buf file_path (List.length base)).
Proof.
  unfold tsk_hdb_open_db_path.
  intros [-> | ->].
  - change (base ++ _TSK_T "-md5.idx") with (base ++ "-"%char :: _TSK_T "md5.idx").
    rewrite TSTRRCHR_last.
    + rewrite skipn_length_app. reflexivity.
    + simpl. intuition discriminate.
  - change (base ++ _TSK_T "-sha1.idx") with (base ++ "-"%char :: _TSK_T "sha1.idx").
    rewrite TSTRRCHR_last.
    + rewrite skipn_length_app. reflexivity.
    + simpl. intuition discriminate.
Qed.

(** On any other path the flag is clear and the whole path is copied. *)
Lemma tsk_hdb_open_db_path_plain (file_path buf : list TSK_TCHAR) :
  (forall base, ~ idx_suffixed file_path base) ->
  tsk_hdb_open_db_path file_path buf = (0%Z, TSTRNCPY buf file_path (TSTRLEN file_path)).
Proof.
  intros Hplain. unfold tsk_hdb_open_db_path.
  destruct (TSTRRCHR file_path "-"%char) as [off|] eqn:Hext; [|reflexivity].
  destruct (((TSTRLEN (skipn off file_path) =? 8)%nat || (TSTRLEN (skipn off file_path) =? 9)%nat)
            && ((TSTRCMP (skipn off file_path) (_TSK_T "-md5.idx") =? 0)%Z
                || (TSTRCMP (skipn off file_path) (_TSK_T "-sha1.idx") =? 0)%Z)) eqn:Hc;
    [|reflexivity].
  exfalso. apply andb_true_iff in Hc as [_ Hc]. apply orb_true_iff in Hc.
  apply (Hplain (firstn off file_path)). unfold idx_suffixed.
  destruct Hc as [Hc | Hc]; apply Z.eqb_eq, TSTRCMP_zero in Hc;
    [left | right]; rewrite <- Hc; symmetry; apply firstn_skipn.
Qed.

Lemma db_path_of_suffixed (file_path base : path) :
  cstring file_path -> idx_suffixed file_path base -> db_path_of file_path = base.
Proof.
  intros Hs Hsuf. unfold db_path_of.
  rewrite (tsk_hdb_open_db_path_suffixed _ base) by exact Hsuf. simpl snd.
  rewrite c_str_TSTRNCPY_zeroed.
  - destruct Hsuf as [-> | ->]; apply firstn_length_app.
  - exact Hs.
  - unfold TSTRLEN. destruct Hsuf as [-> | ->]; rewrite length_app; lia.
Qed.

Lemma db_path_of_plain (file_path : path) :
  cstring file_path -> (forall base, ~ idx_suffixed file_path base) ->
  db_path_of file_path = file_path.
Proof.
  intros Hs Hplain. unfold db_path_of.
  rewrite tsk_hdb_open_db_path_plain by exact Hplain. simpl snd.
  rewrite c_str_TSTRNCPY_zeroed by (exact Hs || apply Nat.le_refl).
  apply firstn_all.
Qed.

(** C5: for a path that ends in "-md5.idx" or "-sha1.idx" the database
    path is the path without that suffix; for every other path it is
    the path itself. *)
Theorem tsk_hdb_open_db_path_strips_index_suffix (file_path : path) :
  cstring file_path ->
  (forall base, idx_suffixed file_path base -> db_path_of file_path = base)
  /\ ((forall base, ~ idx_suffixed file_path base) -> db_path_of file_path = file_path).
Proof.
  intros Hs. split.
  - intros base Hsuf. apply db_path_of_suffixed; assumption.
  - intros Hplain. apply db_path_of_plain; assumption.
Qed.

Lemma tsk_hdb_open_db_path_strips_index_suffix_witness :
  db_path_of (_TSK_T "nsrl/set-sha1.idx") = _TSK_T "nsrl/set"
  /\ db_path_of (_TSK_T "set-md5.idx") = _TSK_T "set"
  /\ db_path_of (_TSK_T "known.md5") = _TSK_T "known.md5".
Proof.
  split; [|split].
  - apply (tsk_hdb_open_db_path_strips_index_suffix (_TSK_T "nsrl/set-sha1.idx")).
    + reflexivity.
    + right. reflexivity.
  - apply (tsk_hdb_open_db_path_strips_index_suffix (_TSK_T "set-md5.idx")).
    + reflexivity.
    + left. reflexivity.
  - apply (tsk_hdb_open_db_path_strips_index_suffix (_TSK_T "known.md5")).
    + reflexivity.
    + intros base [H | H]; apply (f_equal (@rev _)) in H;
        rewrite rev_app_distr in H; discriminate H.
Defined.

(** ** The router *)

Section RouterFacts.

Context {B TSK_HDB_LOOKUP_FN void_ptr : Type}.
Variable E : collaborators B TSK_HDB_LOOKUP_FN void_ptr.

Lemma tsk_hdb_open_index_missing_base (file_path : path) (flags : Z) (w : world) :
  tsk_malloc_serves E ((TSTRLEN file_path + 1) * 1) = true ->
  Z.land flags (TSK_HDB_OPEN_IDXONLY E) = 0%Z ->
  hdb_fs E (db_path_of file_path) = None ->
  fst (tsk_hdb_open_db_path file_path (repeat NUL ((TSTRLEN file_path + 1) * 1))) = 1%Z ->
  match hdb_fs E file_path with
  | Some _ => index_only_opened E (db_path_of file_path) file_path w
                                (tsk_hdb_open E (Some file_path) flags w)
  | None => open_failed TSK_ERR_HDB_OPEN
                        [call_hdb_open_file (db_path_of file_path); call_hdb_open_file file_path]
                        (open_streams w) w
                        (tsk_hdb_open E (Some file_path) flags w)
  end.
Proof.
  intros Hserves Hflags Hbase Hidx.
  unfold index_only_opened, open_failed, tsk_hdb_open, bind, tsk_malloc.
  rewrite Hserves. unfold db_path_of in *.
  destruct (tsk_hdb_open_db_path file_path (repeat NUL ((TSTRLEN file_path + 1) * 1)))
    as [flag buf]. simpl in Hbase, Hidx. subst flag. simpl snd.
  rewrite Hflags. simpl.
  unfold hdb_open_file, bind, log. rewrite Hbase. simpl.
  destruct (hdb_fs E file_path) as [data|]; simpl.
  - unfold construct, bind, log, ret; simpl.
    destruct (list_eq_dec ascii_dec file_path file_path) as [_|Hne]; [|contradiction].
    destruct (idxonly_open E (c_str buf) (tsk_error w) (open_streams w)) as [[r e] streams].
    simpl. unfold with_buffers, with_streams, with_error, with_call; simpl.
    rewrite <- app_assoc. simpl. rewrite <- app_assoc. reflexivity.
  - eexists. split; [reflexivity|]. simpl. rewrite <- app_assoc. repeat split.
Qed.

Lemma tsk_hdb_open_plain_missing (file_path : path) (flags : Z) (w : world) :
  tsk_malloc_serves E ((TSTRLEN file_path + 1) * 1) = true ->
  Z.land flags (TSK_HDB_OPEN_IDXONLY E) = 0%Z ->
  hdb_fs E (db_path_of file_path) = None ->
  fst (tsk_hdb_open_db_path file_path (repeat NUL ((TSTRLEN file_path + 1) * 1))) = 0%Z ->
  open_failed TSK_ERR_HDB_OPEN [call_hdb_open_file (db_path_of file_path)]
              (open_streams w) w
              (tsk_hdb_open E (Some file_path) flags w).
Proof.
  intros Hserves Hflags Hbase Hidx.
  unfold open_failed, tsk_hdb_open, bind, tsk_malloc.
  rewrite Hserves. unfold db_path_of in *.
  destruct (tsk_hdb_open_db_path file_path (repeat NUL ((TSTRLEN file_path + 1) * 1)))
    as [flag buf]. simpl in Hbase, Hidx. subst flag. simpl snd.
  rewrite Hflags. simpl.
  unfold hdb_open_file, bind, log. rewrite Hbase. simpl.
  eexists. split; [reflexivity|]. simpl. repeat split.
Qed.

(** When the database file opens and the detector cannot name its
    type, the function reports the error, frees the path buffer and
    returns NULL; the stream it opened is still open. *)
Lemma tsk_hdb_open_unknown_type (file_path : path) (flags : Z) (w : world)
      (data : list Byte.byte) :
  tsk_malloc_serves E ((TSTRLEN file_path + 1) * 1) = true ->
  Z.land flags (TSK_HDB_OPEN_IDXONLY E) = 0%Z ->
  hdb_fs E (db_path_of file_path) = Some data ->
  fst (hdb_determine_db_type (sniff E)
         (opened_stream E (db_path_of file_path) data)
         (db_path_of file_path)) = TSK_HDB_DBTYPE_INVALID_ID ->
  open_failed TSK_ERR_HDB_UNKTYPE [call_hdb_open_file (db_path_of file_path)]
              (db_path_of file_path :: open_streams w) w
              (tsk_hdb_open E (Some file_path) flags w).
Proof.
  intros Hserves Hflags Hbase Hunk.
  unfold open_failed, tsk_hdb_open, bind, tsk_malloc.
  rewrite Hserves. unfold db_path_of in *.
  destruct (tsk_hdb_open_db_path file_path (repeat NUL ((TSTRLEN file_path + 1) * 1)))
    as [flag buf]. simpl in Hbase, Hunk. simpl snd.
  rewrite Hflags. simpl.
  unfold hdb_open_file, bind, log. rewrite Hbase. simpl.
  destruct (hdb_determine_db_type (sniff E)
              (opened_stream E (c_str buf) data) (c_str buf))
    as [t f]. simpl in Hunk. subst t. simpl.
  eexists. split; [reflexivity|]. simpl. repeat split.
Qed.

(** The two failures in front of any acquisition. *)
Lemma tsk_hdb_open_null_path (flags : Z) (w : world) :
  open_failed TSK_ERR_HDB_ARG [] (open_streams w) w (tsk_hdb_open E None flags w).
Proof.
  eexists. split; [reflexivity|]. simpl. rewrite app_nil_r. repeat split.
Qed.

Lemma tsk_hdb_open_no_memory (file_path : path) (flags : Z) (w : world) :
  tsk_malloc_serves E ((TSTRLEN file_path + 1) * 1) = false ->
  tsk_hdb_open E (Some file_path) flags w
  = Returned None (with_error (tsk_malloc_failed E (tsk_error w)) w).
Proof.
  intros Hserves. unfold tsk_hdb_open, bind, tsk_malloc. rewrite Hserves. reflexivity.
Qed.

(** C6: without the index-only flag, when the database path does not
    open, an index-only database is constructed exactly when the
    supplied path carries an index suffix and that index file opens;
    without suffix, or with an index that does not open either, the
    call fails with an open error and no constructor is called. *)
Theorem tsk_hdb_open_index_fallback (file_path : path) (flags : Z) (w : world) :
  cstring file_path ->
  tsk_malloc_serves E ((TSTRLEN file_path + 1) * 1) = true ->
  Z.land flags (TSK_HDB_OPEN_IDXONLY E) = 0%Z ->
  hdb_fs E (db_path_of file_path) = None ->
  (forall base, idx_suffixed file_path base ->
     match hdb_fs E file_path with
     | Some _ => index_only_opened E base file_path w
                                   (tsk_hdb_open E (Some file_path) flags w)
     | None => open_failed TSK_ERR_HDB_OPEN
                           [call_hdb_open_file base; call_hdb_open_file file_path]
                           (open_streams w) w
                           (tsk_hdb_open E (Some file_path) flags w)
     end)
  /\ ((forall base, ~ idx_suffixed file_path base) ->
      open_failed TSK_ERR_HDB_OPEN [call_hdb_open_file file_path]
                  (open_streams w) w
                  (tsk_hdb_open E (Some file_path) flags w)).
Proof.
  intros Hs Hserves Hflags Hbase. split.
  - intros base Hsuf.
    rewrite <- (db_path_of_suffixed file_path base Hs Hsuf).
    apply tsk_hdb_open_index_missing_base; try assumption.
    rewrite (tsk_hdb_open_db_path_suffixed _ base) by exact Hsuf. reflexivity.
  - intros Hplain.
    rewrite <- (db_path_of_plain file_path Hs Hplain) at 1.
    apply tsk_hdb_open_plain_missing; try assumption.
    rewrite tsk_hdb_open_db_path_plain by exact Hplain. reflexivity.
Qed.

End RouterFacts.

Lemma tsk_hdb_open_index_fallback_witness :
  index_only_opened sample_collaborators (_TSK_T "set") (_TSK_T "set-md5.idx") quiet
                    (tsk_hdb_open sample_collaborators (Some (_TSK_T "set-md5.idx")) 0 quiet)
  /\ open_failed TSK_ERR_HDB_OPEN
                 [call_hdb_open_file (_TSK_T "gone"); call_hdb_open_file (_TSK_T "gone-sha1.idx")]
                 [] quiet
                 (tsk_hdb_open sample_collaborators (Some (_TSK_T "gone-sha1.idx")) 0 quiet
                  : outcome (option (TSK_HDB_INFO journal unit unit)))
  /\ open_failed TSK_ERR_HDB_OPEN [call_hdb_open_file (_TSK_T "missing.txt")] [] quiet
                 (tsk_hdb_open sample_collaborators (Some (_TSK_T "missing.txt")) 0 quiet
                  : outcome (option (TSK_HDB_INFO journal unit unit))).
Proof.
  split; [|split].
  - apply (proj1 (tsk_hdb_open_index_fallback sample_collaborators (_TSK_T "set-md5.idx") 0 quiet
                    eq_refl eq_refl eq_refl eq_refl) (_TSK_T "set")).
    left. reflexivity.
  - apply (proj1 (tsk_hdb_open_index_fallback sample_collaborators (_TSK_T "gone-sha1.idx") 0 quiet
                    eq_refl eq_refl eq_refl eq_refl) (_TSK_T "gone")).
    right. reflexivity.
  - apply (proj2 (tsk_hdb_open_index_fallback sample_collaborators (_TSK_T "missing.txt") 0 quiet
                    eq_refl eq_refl eq_refl eq_refl)).
    intros base [H | H]; apply (f_equal (@rev _)) in H;
      rewrite rev_app_distr in H; discriminate H.
Defined.

(** C8 at the failing input: opening `notes.txt`, a file of no known
    format, returns NULL with the unknown-type error and the path
    buffer freed, and the stream opened on the file is left open. *)
Theorem tsk_hdb_open_unknown_type_leaves_stream_open :
  open_failed TSK_ERR_HDB_UNKTYPE [call_hdb_open_file (_TSK_T "notes.txt")]
              [_TSK_T "notes.txt"] quiet
              (tsk_hdb_open sample_collaborators (Some (_TSK_T "notes.txt")) 0 quiet
               : outcome (option (TSK_HDB_INFO journal unit unit))).
Proof.
  apply (tsk_hdb_open_unknown_type sample_collaborators (_TSK_T "notes.txt") 0 quiet
           (list_byte_of_string "hello")); reflexivity.
Qed.

(** ** The operations on a handle *)

Section HandleFacts.

Context {B TSK_HDB_LOOKUP_FN void_ptr : Type}.

Local Abbreviation HDB := (TSK_HDB_INFO B TSK_HDB_LOOKUP_FN void_ptr).
Local Abbreviation NULL := (@None (TSK_HDB_INFO B TSK_HDB_LOOKUP_FN void_ptr)).

(** A backend that reports it takes no updates sees none of the four
    mutation calls. *)
Lemma run_mutation_refused (m : mutation) (h : HDB) (w : world) :
  accepts_updates h = Some 0%Z ->
  refused (refusal_kind m h) (refusal_calls m h) h w (run_mutation m (Some h) w).
Proof.
  intros Hcap. unfold refused, refusal_kind, refusal_calls.
  destruct m; simpl;
    [ unfold tsk_hdb_add_entry; destruct (add_entry h)
    | unfold tsk_hdb_begin_transaction; destruct (begin_transaction h)
    | unfold tsk_hdb_commit_transaction; destruct (commit_transaction h)
    | unfold tsk_hdb_rollback_transaction; destruct (rollback_transaction h) ];
    rewrite ?Hcap; simpl;
    eexists; (split; [reflexivity|]); simpl; rewrite ?app_nil_r; split; reflexivity.
Qed.

(** Begin is refused while a transaction is in progress; commit and
    rollback are refused while none is. *)
Lemma tsk_hdb_begin_transaction_twice (h : HDB) (w : world) (v : Z) :
  accepts_updates h = Some v -> v <> 0%Z -> transaction_in_progress h <> 0%Z ->
  refused (refusal_kind do_begin_transaction h) (refusal_calls do_begin_transaction h) h w
          (tsk_hdb_begin_transaction (Some h) w).
Proof.
  intros Hcap Hv Htip. apply nonzero_true_iff in Hv, Htip.
  unfold refused, refusal_kind, refusal_calls, tsk_hdb_begin_transaction; simpl.
  destruct (begin_transaction h); rewrite ?Hcap; simpl; unfold bind; simpl;
    rewrite ?Hv, ?Htip; simpl;
    eexists; (split; [reflexivity|]); simpl; rewrite ?app_nil_r; split; reflexivity.
Qed.

Lemma tsk_hdb_commit_transaction_idle (h : HDB) (w : world) (v : Z) :
  accepts_updates h = Some v -> v <> 0%Z -> transaction_in_progress h = 0%Z ->
  refused (refusal_kind do_commit_transaction h) (refusal_calls do_commit_transaction h) h w
          (tsk_hdb_commit_transaction (Some h) w).
Proof.
  intros Hcap Hv Htip. apply nonzero_true_iff in Hv.
  unfold refused, refusal_kind, refusal_calls, tsk_hdb_commit_transaction; simpl.
  destruct (commit_transaction h); rewrite ?Hcap; simpl; unfold bind; simpl;
    rewrite ?Hv, ?Htip; simpl;
    eexists; (split; [reflexivity|]); simpl; rewrite ?app_nil_r; split; reflexivity.
Qed.

Lemma tsk_hdb_rollback_transaction_idle (h : HDB) (w : world) (v : Z) :
  accepts_updates h = Some v -> v <> 0%Z -> transaction_in_progress h = 0%Z ->
  refused (refusal_kind do_rollback_transaction h) (refusal_calls do_rollback_transaction h) h w
          (tsk_hdb_rollback_transaction (Some h) w).
Proof.
  intros Hcap Hv Htip. apply nonzero_true_iff in Hv.
  unfold refused, refusal_kind, refusal_calls, tsk_hdb_rollback_transaction; simpl.
  destruct (rollback_transaction h); rewrite ?Hcap; simpl; unfold bind; simpl;
    rewrite ?Hv, ?Htip; simpl;
    eexists; (split; [reflexivity|]); simpl; rewrite ?app_nil_r; split; reflexivity.
Qed.

(** C4: on a handle whose backend accepts updates, begin while a
    transaction is in progress, and commit or rollback while none is,
    return 1 with an error reported and leave the struct, and with it
    [transaction_in_progress], as it was. *)
Theorem transaction_misuse_rejected (h : HDB) (w : world) (v : Z) :
  accepts_updates h = Some v -> v <> 0%Z ->
  (transaction_in_progress h <> 0%Z ->
   refused (refusal_kind do_begin_transaction h) (refusal_calls do_begin_transaction h) h w
           (tsk_hdb_begin_transaction (Some h) w))
  /\ (transaction_in_progress h = 0%Z ->
      refused (refusal_kind do_commit_transaction h) (refusal_calls do_commit_transaction h) h w
              (tsk_hdb_commit_transaction (Some h) w)
      /\ refused (refusal_kind do_rollback_transaction h)
                 (refusal_calls do_rollback_transaction h) h w
                 (tsk_hdb_rollback_transaction (Some h) w)).
Proof.
  intros Hcap Hv. split; [|split].
  - apply (tsk_hdb_begin_transaction_twice h w v); assumption.
  - apply (tsk_hdb_commit_transaction_idle h w v); assumption.
  - apply (tsk_hdb_rollback_transaction_idle h w v); assumption.
Qed.

(** What line 655 does on the path that reaches the backend: it calls
    the [commit_transaction] entry of the table (and faults when that
    entry is NULL); the [rollback_transaction] entry is only tested. *)
Lemma tsk_hdb_rollback_transaction_calls_commit (h : HDB) (w : world) (v : Z)
      (r : backend_fn B unit Z) :
  rollback_transaction h = Some r ->
  accepts_updates h = Some v -> v <> 0%Z -> transaction_in_progress h <> 0%Z ->
  tsk_hdb_rollback_transaction (Some h) w
  = match commit_transaction h with
    | None => Fault
    | Some g =>
        let '(rc, b, e) := g (impl h) tt (tsk_error w) in
        Returned (if nonzero rc then (1%Z, Some (with_impl b h))
                  else (0%Z, Some (with_transaction_in_progress 0%Z (with_impl b h))))
                 (with_error e
                    (with_call (call_backend slot_commit_transaction)
                       (with_call (call_backend slot_accepts_updates) w)))
    end.
Proof.
  intros Hr Hcap Hv Htip. apply nonzero_true_iff in Hv, Htip.
  unfold tsk_hdb_rollback_transaction. rewrite Hr, Hcap. simpl. unfold bind; simpl.
  rewrite Hv, Htip.
  destruct (commit_transaction h) as [g|]; simpl; [|reflexivity].
  destruct (g (impl h) tt (tsk_error w)) as [[rc b] e]. simpl.
  destruct (nonzero rc); reflexivity.
Qed.

(** A call through the table replaces the backend's data and nothing
    else of the struct. *)
Lemma invoke_keeps_flags {Args Ret : Type} (s : vslot) (f : option (backend_fn B Args Ret))
      (h h' : HDB) (a : Args) (r : Ret) (w w' : world) :
  invoke s f h a w = Returned (r, h') w' ->
  accepts_updates h' = accepts_updates h
  /\ transaction_in_progress h' = transaction_in_progress h.
Proof.
  unfold invoke. destruct f as [g|]; [|discriminate].
  destruct (g (impl h) a (tsk_error w)) as [[r0 b] e].
  intros H. injection H as _ <- _. split; reflexivity.
Qed.

Ltac through_invoke Hrun Hcap :=
  unfold perform, forget, bind, ret in Hrun; simpl in Hrun; unfold bind, ret in Hrun;
  match type of Hrun with
  | context [invoke ?s ?f ?h ?a ?w] =>
      let Hi := fresh "Hi" in
      destruct (invoke s f h a w) as [[? ?] ?|] eqn:Hi; [|discriminate Hrun];
      simpl in Hrun; injection Hrun as <- _;
      apply invoke_keeps_flags in Hi; destruct Hi as [Ha Ht];
      split; [rewrite Ha; exact Hcap | exact Ht]
  end.

(** One call of the API on a backend that takes no updates: the
    capability answer and the transaction flag stay as they are. *)
Lemma perform_keeps_flags (c : api_call TSK_HDB_LOOKUP_FN void_ptr) (h h' : HDB) (w w' : world) :
  perform c (Some h) w = Returned (Some h') w' ->
  accepts_updates h = Some 0%Z ->
  accepts_updates h' = Some 0%Z /\ transaction_in_progress h' = transaction_in_progress h.
Proof.
  intros Hrun Hcap. destruct c as [m| | | | | | | | | | | | | ].
  - destruct (run_mutation_refused m h w Hcap) as (w1 & Hm & _).
    unfold perform, forget, bind in Hrun. rewrite Hm in Hrun.
    injection Hrun as <- _. split; [exact Hcap | reflexivity].
  - unfold tsk_hdb_get_db_path in Hrun. through_invoke Hrun Hcap.
  - unfold tsk_hdb_get_display_name in Hrun. through_invoke Hrun Hcap.
  - unfold perform, forget, bind, tsk_hdb_uses_external_indexes, invoke0 in Hrun.
    destruct (uses_external_indexes h); [|discriminate Hrun].
    simpl in Hrun. injection Hrun as <- _. split; [exact Hcap | reflexivity].
  - unfold tsk_hdb_get_idx_path in Hrun. through_invoke Hrun Hcap.
  - unfold tsk_hdb_open_idx in Hrun. through_invoke Hrun Hcap.
  - unfold tsk_hdb_has_idx in Hrun. through_invoke Hrun Hcap.
  - simpl in Hrun. injection Hrun as <- _. split; [exact Hcap | reflexivity].
  - unfold tsk_hdb_make_index in Hrun. through_invoke Hrun Hcap.
  - unfold tsk_hdb_lookup_str in Hrun. through_invoke Hrun Hcap.
  - unfold tsk_hdb_lookup_raw in Hrun. through_invoke Hrun Hcap.
  - unfold tsk_hdb_lookup_verbose_str in Hrun.
    destruct hash as [hash|]; [destruct result as [result|]|].
    + through_invoke Hrun Hcap.
    + simpl in Hrun. injection Hrun as <- _. split; [exact Hcap | reflexivity].
    + simpl in Hrun. injection Hrun as <- _. split; [exact Hcap | reflexivity].
  - unfold perform, forget, bind, tsk_hdb_accepts_updates, invoke0 in Hrun.
    rewrite Hcap in Hrun. simpl in Hrun.
    injection Hrun as <- _. split; [exact Hcap | reflexivity].
  - unfold perform, forget, bind, tsk_hdb_close, ret in Hrun; simpl in Hrun.
    unfold bind in Hrun.
    destruct (invoke slot_close_db (close_db h) h tt w) as [[? ?] ?|]; discriminate Hrun.
Qed.

(** Whatever the caller does with a handle whose backend takes no
    updates, no transaction is ever in progress. *)
Lemma reachable_keeps_flags (h0 h : HDB) (w0 w : world) :
  accepts_updates h0 = Some 0%Z -> transaction_in_progress h0 = 0%Z ->
  reachable h0 w0 h w ->
  accepts_updates h = Some 0%Z /\ transaction_in_progress h = 0%Z.
Proof.
  intros Hcap Htip Hreach.
  induction Hreach as [|h w c h' w' _ IH Hstep]; [split; assumption|].
  destruct IH as [IHa IHt].
  destruct (perform_keeps_flags c h h' w w' Hstep IHa) as [Ha Ht].
  split; [exact Ha | rewrite Ht; exact IHt].
Qed.

(** Whatever the handle, an entry point that calls into the backend
    at all calls [accepts_updates] first. *)
Lemma run_mutation_asks_first (m : mutation) (h : HDB) (w : world) :
  match calls_since w (run_mutation m (Some h) w) with
  | [] => True
  | c :: _ => c = call_backend slot_accepts_updates
  end.
Proof.
  assert (Hnone : skipn (List.length (dispatched w)) (dispatched w) = []) by apply skipn_all.
  assert (Hone : forall c, skipn (List.length (dispatched w)) (dispatched w ++ [c]) = [c])
    by (intros c; apply skipn_length_app).
  assert (Htwo : forall c d,
             skipn (List.length (dispatched w)) ((dispatched w ++ [c]) ++ [d]) = [c; d])
    by (intros c d; rewrite <- app_assoc; apply skipn_length_app).
  destruct m; simpl;
    [ unfold tsk_hdb_add_entry; destruct (add_entry h) as [g|]
    | unfold tsk_hdb_begin_transaction; destruct (begin_transaction h) as [g|]
    | unfold tsk_hdb_commit_transaction; destruct (commit_transaction h) as [g|];
      [|simpl; rewrite Hnone; exact I]
    | unfold tsk_hdb_rollback_transaction; destruct (rollback_transaction h) as [r|];
      [destruct (commit_transaction h) as [g|] eqn:Hcommit|] ];
    simpl; rewrite ?Hnone; try exact I;
    (destruct (accepts_updates h) as [v|]; [|exact I]);
    simpl; unfold bind; simpl;
    (destruct (nonzero v); simpl; [|rewrite Hone; reflexivity]);
    try (destruct (nonzero (transaction_in_progress h)); simpl;
         try (rewrite Hone; reflexivity));
    try (destruct (g (impl h) _ (tsk_error w)) as [[rc b] e]; simpl;
         try (destruct (nonzero rc); simpl); rewrite Htwo; reflexivity);
    exact I.
Qed.

(** C3, as amended: an entry point that calls into the backend calls
    [accepts_updates] first.  On a handle whose backend reports that it
    takes no updates, in every state the caller can reach from one with
    no transaction in progress, no transaction is in progress, and each
    of the four mutation entry points returns 1 and leaves the struct
    as it was without calling a mutation entry of the table: with a
    procedure error after asking [accepts_updates] when its own entry
    of the table is set, with an argument error when that entry is
    NULL. *)
Theorem mutation_gated_by_accepts_updates (h0 h : HDB) (w0 w : world) :
  accepts_updates h0 = Some 0%Z -> transaction_in_progress h0 = 0%Z ->
  reachable h0 w0 h w ->
  transaction_in_progress h = 0%Z
  /\ (forall m : mutation,
        refused (refusal_kind m h) (refusal_calls m h) h w (run_mutation m (Some h) w))
  /\ (forall (m : mutation) (h1 : HDB) (w1 : world),
        match calls_since w1 (run_mutation m (Some h1) w1) with
        | [] => True
        | c :: _ => c = call_backend slot_accepts_updates
        end).
Proof.
  intros Hcap Htip Hreach.
  destruct (reachable_keeps_flags h0 h w0 w Hcap Htip Hreach) as [Ha Ht].
  split; [exact Ht|]. split.
  - intros m. apply run_mutation_refused, Ha.
  - intros m h1 w1. apply run_mutation_asks_first.
Qed.

End HandleFacts.

(** ** A NULL handle *)

Section NullHandleFacts.

Context {B TSK_HDB_LOOKUP_FN void_ptr : Type}.

Local Abbreviation HDB := (TSK_HDB_INFO B TSK_HDB_LOOKUP_FN void_ptr).
Local Abbreviation NULL := (@None (TSK_HDB_INFO B TSK_HDB_LOOKUP_FN void_ptr)).

Ltac null_report :=
  eexists; eexists; split; [reflexivity|]; simpl; repeat split.

(** On a NULL handle these operations report an argument error that
    starts with their own name, and call nothing. *)
Lemma null_handle_reports (w : world) (htype : TSK_HDB_HTYPE_ENUM) (type : option path)
      (hash : option string) (raw : list Byte.byte) (len flags : Z)
      (action : option TSK_HDB_LOOKUP_FN) (ptr : option void_ptr)
      (filename md5 sha1 sha256 comment : option string) :
  names_itself "tsk_hdb_get_db_path" w (tsk_hdb_get_db_path NULL w)
  /\ names_itself "tsk_hdb_get_display_name" w (tsk_hdb_get_display_name NULL w)
  /\ names_itself "tsk_hdb_get_idx_path" w (tsk_hdb_get_idx_path NULL htype w)
  /\ names_itself "tsk_hdb_open_idx" w (tsk_hdb_open_idx NULL htype w)
  /\ names_itself "tsk_hdb_has_idx" w (tsk_hdb_has_idx NULL htype w)
  /\ names_itself "tsk_hdb_is_idx_only" w (tsk_hdb_is_idx_only NULL w)
  /\ names_itself "tsk_hdb_make_index" w (tsk_hdb_make_index NULL type w)
  /\ names_itself "tsk_hdb_lookup_str" w (tsk_hdb_lookup_str NULL hash flags action ptr w)
  /\ names_itself "tsk_hdb_lookup_raw" w (tsk_hdb_lookup_raw NULL raw len flags action ptr w)
  /\ names_itself "tsk_hdb_lookup_verbose_str" w (tsk_hdb_lookup_verbose_str NULL hash ptr w)
  /\ names_itself "tsk_hdb_accepts_updates" w (tsk_hdb_accepts_updates NULL w)
  /\ names_itself "tsk_hdb_add_entry" w
                  (tsk_hdb_add_entry NULL filename md5 sha1 sha256 comment w)
  /\ names_itself "tsk_hdb_begin_transaction" w (tsk_hdb_begin_transaction NULL w)
  /\ names_itself "tsk_hdb_commit_transaction" w (tsk_hdb_commit_transaction NULL w)
  /\ names_itself "tsk_hdb_rollback_transaction" w (tsk_hdb_rollback_transaction NULL w)
  /\ names_itself "tsk_hdb_close" w (tsk_hdb_close NULL w).
Proof.
  repeat (split; [null_report|]). null_report.
Qed.

(** C9 at the failing input: on a NULL handle
    [tsk_hdb_uses_external_indexes] returns 0 and calls nothing, and the
    error string it leaves is the one of [tsk_hdb_get_display_name]; it
    does not name the operation that failed. *)
Theorem tsk_hdb_uses_external_indexes_null_names_other_operation (w : world) :
  value_of (tsk_hdb_uses_external_indexes NULL w) = Some 0%Z
  /\ calls_since w (tsk_hdb_uses_external_indexes NULL w) = []
  /\ errstr_of (tsk_hdb_uses_external_indexes NULL w) = "tsk_hdb_get_display_name: NULL hdb_info"
  /\ errstr_of (tsk_hdb_uses_external_indexes NULL w)
     = errstr_of (tsk_hdb_get_display_name NULL w)
  /\ ~ names_itself "tsk_hdb_uses_external_indexes" w (tsk_hdb_uses_external_indexes NULL w).
Proof.
  split; [reflexivity|]. split.
  - simpl. apply skipn_all.
  - split; [reflexivity|]. split; [reflexivity|].
    intros (a & w' & Heq & _ & Hp & _).
    injection Heq as _ <-. simpl in Hp. discriminate Hp.
Qed.

(** C10: on a NULL handle the four yes/no queries return 0 and report
    an argument error; on a handle whose answer is no they return 0 as
    well, and the three that do not go through [open_index] leave the
    error record as it was. *)
Theorem null_handle_answers_like_no (h1 h2 h3 h4 : HDB) (htype : TSK_HDB_HTYPE_ENUM)
        (w : world) (g : backend_fn B TSK_HDB_HTYPE_ENUM Z) :
  uses_external_indexes h1 = Some 0%Z ->
  open_index h2 = Some g -> fst (fst (g (impl h2) htype (tsk_error w))) <> 0%Z ->
  db_type h3 <> TSK_HDB_DBTYPE_IDXONLY_ID ->
  accepts_updates h4 = Some 0%Z ->
  (value_of (tsk_hdb_uses_external_indexes NULL w) = Some 0%Z
   /\ errno_of (tsk_hdb_uses_external_indexes NULL w) = Some TSK_ERR_HDB_ARG
   /\ value_of (tsk_hdb_uses_external_indexes (Some h1) w) = Some 0%Z
   /\ errno_of (tsk_hdb_uses_external_indexes (Some h1) w) = t_errno (tsk_error w))
  /\ (value_of (tsk_hdb_has_idx NULL htype w) = Some 0%Z
      /\ errno_of (tsk_hdb_has_idx NULL htype w) = Some TSK_ERR_HDB_ARG
      /\ value_of (tsk_hdb_has_idx (Some h2) htype w) = Some 0%Z)
  /\ (value_of (tsk_hdb_is_idx_only NULL w) = Some 0%Z
      /\ errno_of (tsk_hdb_is_idx_only NULL w) = Some TSK_ERR_HDB_ARG
      /\ value_of (tsk_hdb_is_idx_only (Some h3) w) = Some 0%Z
      /\ errno_of (tsk_hdb_is_idx_only (Some h3) w) = t_errno (tsk_error w))
  /\ (value_of (tsk_hdb_accepts_updates NULL w) = Some 0%Z
      /\ errno_of (tsk_hdb_accepts_updates NULL w) = Some TSK_ERR_HDB_ARG
      /\ value_of (tsk_hdb_accepts_updates (Some h4) w) = Some 0%Z
      /\ errno_of (tsk_hdb_accepts_updates (Some h4) w) = t_errno (tsk_error w)).
Proof.
  intros Hext Hidx Hno Htype Hupd.
  split; [|split; [|split]].
  - unfold tsk_hdb_uses_external_indexes. rewrite Hext. repeat split.
  - split; [reflexivity|]. split; [reflexivity|].
    unfold tsk_hdb_has_idx, invoke, bind. rewrite Hidx.
    destruct (g (impl h2) htype (tsk_error w)) as [[r b] e]. simpl in Hno. simpl.
    destruct (Z.eqb_spec r 0); [contradiction | reflexivity].
  - split; [reflexivity|]. split; [reflexivity|].
    unfold tsk_hdb_is_idx_only. simpl.
    destruct (db_type h3); try contradiction; split; reflexivity.
  - unfold tsk_hdb_accepts_updates. rewrite Hupd. repeat split.
Qed.

End NullHandleFacts.

(** ** The operations run on the journal backend *)

Lemma transaction_misuse_rejected_witness :
  refused TSK_ERR_HDB_PROC [call_backend slot_accepts_updates] kdb_in_transaction quiet
          (tsk_hdb_begin_transaction (Some kdb_in_transaction) quiet)
  /\ refused TSK_ERR_HDB_PROC [call_backend slot_accepts_updates] kdb_idle quiet
             (tsk_hdb_commit_transaction (Some kdb_idle) quiet)
  /\ refused TSK_ERR_HDB_PROC [call_backend slot_accepts_updates] kdb_idle quiet
             (tsk_hdb_rollback_transaction (Some kdb_idle) quiet).
Proof.
  split.
  - apply (proj1 (transaction_misuse_rejected kdb_in_transaction quiet 1%Z
                    eq_refl ltac:(discriminate))).
    discriminate.
  - apply (proj2 (transaction_misuse_rejected kdb_idle quiet 1%Z
                    eq_refl ltac:(discriminate))).
    reflexivity.
Defined.

Lemma mutation_gated_by_accepts_updates_witness :
  transaction_in_progress text_handle = 0%Z
  /\ forall m : mutation,
       refused (refusal_kind m text_handle) (refusal_calls m text_handle) text_handle
               after_refused_begin (run_mutation m (Some text_handle) after_refused_begin).
Proof.
  assert (Hreach : reachable text_handle quiet text_handle after_refused_begin).
  { apply (reachable_step text_handle quiet text_handle quiet
             (api_mutation do_begin_transaction) text_handle after_refused_begin).
    - apply reachable_start.
    - reflexivity. }
  destruct (mutation_gated_by_accepts_updates text_handle text_handle quiet after_refused_begin
              eq_refl eq_refl Hreach) as (Hflag & Hrefused & _).
  split; assumption.
Defined.

(** C3 as stated does not hold on a handle whose backend takes no
    updates and whose table has no [add_entry]: the error reported is
    not of the procedure kind. *)
Lemma tsk_hdb_add_entry_unset_is_argument_error :
  ~ (accepts_updates bare_text_handle = Some 0%Z ->
     errno_of (tsk_hdb_add_entry (Some bare_text_handle)
                 None (Some "d41d8cd98f00b204e9800998ecf8427e") None None None quiet)
     = Some TSK_ERR_HDB_PROC).
Proof.
  intros H. specialize (H eq_refl). simpl in H. discriminate H.
Qed.

(** C2 at the failing input: a rollback on the journal with one pending
    hash calls the commit entry of the table, never the rollback entry,
    reports success and clears the flag; the pending hash ends up
    stored, where the backend's rollback would have dropped it. *)
Theorem tsk_hdb_rollback_transaction_commits_pending :
  calls_since quiet (tsk_hdb_rollback_transaction (Some kdb_in_transaction) quiet)
  = [call_backend slot_accepts_updates; call_backend slot_commit_transaction]
  /\ value_of (tsk_hdb_rollback_transaction (Some kdb_in_transaction) quiet) = Some 0%Z
  /\ option_map transaction_in_progress
       (handle_of (tsk_hdb_rollback_transaction (Some kdb_in_transaction) quiet)) = Some 0%Z
  /\ option_map impl
       (handle_of (tsk_hdb_rollback_transaction (Some kdb_in_transaction) quiet))
     = Some {| stored := ["d41d8cd98f00b204e9800998ecf8427e"]; pending := [] |}
  /\ snd (fst (journal_rollback (impl kdb_in_transaction) tt (tsk_error quiet)))
     = {| stored := []; pending := [] |}.
Proof.
  repeat split.
Qed.

Lemma null_handle_answers_like_no_witness :
  value_of (tsk_hdb_has_idx (@None (TSK_HDB_INFO journal unit unit)) TSK_HDB_HTYPE_MD5_ID quiet)
  = Some 0%Z
  /\ errno_of (tsk_hdb_has_idx (@None (TSK_HDB_INFO journal unit unit)) TSK_HDB_HTYPE_MD5_ID quiet)
     = Some TSK_ERR_HDB_ARG
  /\ value_of (tsk_hdb_has_idx (Some text_handle) TSK_HDB_HTYPE_MD5_ID quiet) = Some 0%Z.
Proof.
  apply (null_handle_answers_like_no kdb_idle text_handle text_handle text_handle
           TSK_HDB_HTYPE_MD5_ID quiet journal_open_index).
  - reflexivity.
  - reflexivity.
  - discriminate.
  - discriminate.
  - reflexivity.
Defined.

(** * Further properties *)

(** ** Creating and opening *)

Section RouterFurther.

Context {B TSK_HDB_LOOKUP_FN void_ptr : Type}.
Variable E : collaborators B TSK_HDB_LOOKUP_FN void_ptr.

(** X1: [tsk_hdb_create] hands a path to the SQLite creator exactly
    when the path ends in ".kdb", and then returns what the creator
    returns; any other path, and NULL, gives 1 with an argument error
    and the creator is not called. *)
Theorem tsk_hdb_create_needs_kdb (file_path : path) (w : world) :
  (forall base, file_path = base ++ _TSK_T ".kdb" ->
     tsk_hdb_create E (Some file_path) w
     = let '(r, e) := sqlite_hdb_create_db E file_path (tsk_error w) in
       Returned r (with_error e (with_call (call_sqlite_hdb_create_db file_path) w)))
  /\ ((forall base, file_path <> base ++ _TSK_T ".kdb") ->
      exists w', tsk_hdb_create E (Some file_path) w = Returned 1%Z w'
                 /\ t_errno (tsk_error w') = Some TSK_ERR_HDB_ARG
                 /\ dispatched w' = dispatched w)
  /\ (exists w', tsk_hdb_create E None w = Returned 1%Z w'
                 /\ t_errno (tsk_error w') = Some TSK_ERR_HDB_ARG
                 /\ dispatched w' = dispatched w).
Proof.
  split; [|split].
  - intros base ->. unfold tsk_hdb_create.
    change (base ++ _TSK_T ".kdb") with (base ++ "."%char :: _TSK_T "kdb").
    rewrite TSTRRCHR_last by (simpl; intuition discriminate).
    rewrite skipn_length_app. simpl.
    destruct (sqlite_hdb_create_db E (base ++ "."%char :: _TSK_T "kdb") (tsk_error w)).
    reflexivity.
  - intros Hplain. unfold tsk_hdb_create.
    destruct (TSTRRCHR file_path "."%char) as [off|] eqn:Hext.
    + destruct ((4 <=? TSTRLEN (skipn off file_path))%nat
                && (TSTRCMP (skipn off file_path) (_TSK_T ".kdb") =? 0)%Z) eqn:Hc.
      * exfalso. apply andb_true_iff in Hc as [_ Hc].
        apply Z.eqb_eq, TSTRCMP_zero in Hc.
        apply (Hplain (firstn off file_path)). rewrite <- Hc. symmetry. apply firstn_skipn.
      * eexists. split; [reflexivity|]. split; reflexivity.
    + eexists. split; [reflexivity|]. split; reflexivity.
  - eexists. split; [reflexivity|]. split; reflexivity.
Qed.

(** X2: with the index-only flag set, [tsk_hdb_open] makes one call of
    [hdb_open_file], on the supplied path as it stands (line 215; the
    call of line 173 is skipped), and what follows depends on that
    call alone: the stream is closed again and the index-only
    constructor is run for the database path, or the call fails with an
    open error. *)
Theorem tsk_hdb_open_index_only_flag (file_path : path) (flags : Z) (w : world) :
  tsk_malloc_serves E ((TSTRLEN file_path + 1) * 1) = true ->
  Z.land flags (TSK_HDB_OPEN_IDXONLY E) <> 0%Z ->
  match hdb_fs E file_path with
  | Some _ =>
      handed_over (idxonly_open E (db_path_of file_path))
                  [call_hdb_open_file file_path;
                   call_constructor TSK_HDB_DBTYPE_IDXONLY_ID (db_path_of file_path)]
                  (open_streams w) w
                  (tsk_hdb_open E (Some file_path) flags w)
  | None =>
      open_failed TSK_ERR_HDB_OPEN [call_hdb_open_file file_path] (open_streams w) w
                  (tsk_hdb_open E (Some file_path) flags w)
  end.
Proof.
  intros Hserves Hflags. apply Z.eqb_neq in Hflags.
  unfold handed_over, open_failed, tsk_hdb_open, bind, tsk_malloc.
  rewrite Hserves. unfold db_path_of.
  destruct (tsk_hdb_open_db_path file_path (repeat NUL ((TSTRLEN file_path + 1) * 1)))
    as [flag buf]. simpl snd.
  rewrite Hflags. simpl.
  unfold hdb_open_file, bind, log.
  destruct (hdb_fs E file_path) as [data|]; simpl.
  - unfold construct, bind, log, ret; simpl.
    destruct (list_eq_dec ascii_dec file_path file_path) as [_|Hne]; [|contradiction].
    destruct (idxonly_open E (c_str buf) (tsk_error w) (open_streams w)) as [[r e] streams].
    simpl. unfold with_buffers, with_streams, with_error, with_call; simpl.
    rewrite <- app_assoc. reflexivity.
  - eexists. split; [reflexivity|]. simpl. repeat split.
Qed.

(** X3: when the database file opens and the detector names a text
    format, [tsk_hdb_open] calls that format's constructor, and no
    other, with the stream still open and as the detector returned it;
    when the file can seek, that is the stream at offset 0. *)
Theorem tsk_hdb_open_text_format (file_path : path) (flags : Z) (w : world)
        (data : list Byte.byte) (t : TSK_HDB_DBTYPE_ENUM)
        (ctor : option FILE -> path -> constructor B TSK_HDB_LOOKUP_FN void_ptr) :
  tsk_malloc_serves E ((TSTRLEN file_path + 1) * 1) = true ->
  Z.land flags (TSK_HDB_OPEN_IDXONLY E) = 0%Z ->
  hdb_fs E (db_path_of file_path) = Some data ->
  fst (hdb_determine_db_type (sniff E)
         (opened_stream E (db_path_of file_path) data)
         (db_path_of file_path)) = t ->
  text_constructor E t = Some ctor ->
  handed_over (ctor (Some (snd (hdb_determine_db_type (sniff E)
                                  (opened_stream E (db_path_of file_path) data)
                                  (db_path_of file_path))))
                    (db_path_of file_path))
              [call_hdb_open_file (db_path_of file_path);
               call_constructor t (db_path_of file_path)]
              (db_path_of file_path :: open_streams w) w
              (tsk_hdb_open E (Some file_path) flags w)
  /\ (hdb_fs_seekable E (db_path_of file_path) = true ->
      snd (hdb_determine_db_type (sniff E)
             (opened_stream E (db_path_of file_path) data)
             (db_path_of file_path))
      = opened_stream E (db_path_of file_path) data).
Proof.
  intros Hserves Hflags Hbase Ht Hctor. split.
  - unfold handed_over, tsk_hdb_open, bind, tsk_malloc.
    rewrite Hserves. unfold db_path_of in *.
    destruct (tsk_hdb_open_db_path file_path (repeat NUL ((TSTRLEN file_path + 1) * 1)))
      as [flag buf]. simpl in Hbase, Ht. simpl snd.
    rewrite Hflags. simpl.
    unfold hdb_open_file, bind, log. rewrite Hbase. simpl.
    destruct (hdb_determine_db_type (sniff E) (opened_stream E (c_str buf) data) (c_str buf))
      as [t' f]. simpl in Ht. subst t'. cbn [snd].
    destruct t; try discriminate Hctor; injection Hctor as <-; simpl;
      unfold construct, bind, log, ret; simpl;
      match goal with
      | |- context [?c (Some f) (c_str buf) (tsk_error w) ?s] =>
          destruct (c (Some f) (c_str buf) (tsk_error w) s) as [[r e] streams]
      end;
      simpl; unfold with_buffers, with_streams, with_error, with_call; simpl;
      rewrite <- app_assoc; reflexivity.
  - intros Hseek. rewrite hdb_determine_db_type_stream by exact Hseek.
    unfold rewind_stream, opened_stream. simpl. rewrite Hseek. reflexivity.
Qed.

(** X4: when the detector names the SQLite format, [tsk_hdb_open]
    closes the stream it opened before it calls the SQLite
    constructor, which gets the path only. *)
Theorem tsk_hdb_open_sqlite_closes_first (file_path : path) (flags : Z) (w : world)
        (data : list Byte.byte) :
  tsk_malloc_serves E ((TSTRLEN file_path + 1) * 1) = true ->
  Z.land flags (TSK_HDB_OPEN_IDXONLY E) = 0%Z ->
  hdb_fs E (db_path_of file_path) = Some data ->
  fst (sqlite_hdb_is_sqlite_file (sniff E)
         (opened_stream E (db_path_of file_path) data)) <> 0%Z ->
  handed_over (sqlite_hdb_open E (db_path_of file_path))
              [call_hdb_open_file (db_path_of file_path);
               call_constructor TSK_HDB_DBTYPE_SQLITE_ID (db_path_of file_path)]
              (open_streams w) w
              (tsk_hdb_open E (Some file_path) flags w).
Proof.
  intros Hserves Hflags Hbase Hsql.
  unfold handed_over, tsk_hdb_open, bind, tsk_malloc.
  rewrite Hserves. unfold db_path_of in *.
  destruct (tsk_hdb_open_db_path file_path (repeat NUL ((TSTRLEN file_path + 1) * 1)))
    as [flag buf]. simpl in Hbase, Hsql. simpl snd.
  rewrite Hflags. simpl.
  unfold hdb_open_file, bind, log. rewrite Hbase. simpl.
  pose proof (hdb_determine_db_type_same_file (sniff E)
                (opened_stream E (c_str buf) data) (c_str buf)) as (Hname & _ & _).
  pose proof (hdb_determine_db_type_sqlite (sniff E)
                (opened_stream E (c_str buf) data) (c_str buf) Hsql) as Ht.
  destruct (hdb_determine_db_type (sniff E) (opened_stream E (c_str buf) data) (c_str buf))
    as [t' f]. simpl in Ht, Hname. subst t'. simpl.
  unfold construct, bind, log, ret, fclose; simpl. rewrite Hname.
  destruct (list_eq_dec ascii_dec (c_str buf) (c_str buf)) as [_|Hne]; [|contradiction].
  destruct (sqlite_hdb_open E (c_str buf) (tsk_error w) (open_streams w)) as [[r e] streams].
  simpl. unfold with_buffers, with_streams, with_error, with_call; simpl.
  rewrite <- app_assoc. reflexivity.
Qed.

End RouterFurther.

Section RouterAccounting.

Context {B TSK_HDB_LOOKUP_FN void_ptr : Type}.
Variable E : collaborators B TSK_HDB_LOOKUP_FN void_ptr.

Ltac run_constructor :=
  match goal with
  | |- context [nsrl_open E ?a ?b ?c ?d] => destruct (nsrl_open E a b c d) as [[? ?] ?]
  | |- context [md5sum_open E ?a ?b ?c ?d] => destruct (md5sum_open E a b c d) as [[? ?] ?]
  | |- context [encase_open E ?a ?b ?c ?d] => destruct (encase_open E a b c d) as [[? ?] ?]
  | |- context [hk_open E ?a ?b ?c ?d] => destruct (hk_open E a b c d) as [[? ?] ?]
  | |- context [idxonly_open E ?b ?c ?d] => destruct (idxonly_open E b c d) as [[? ?] ?]
  | |- context [sqlite_hdb_open E ?b ?c ?d] => destruct (sqlite_hdb_open E b c d) as [[? ?] ?]
  end.

(** X5: whatever the path, the flags and the collaborators do,
    [tsk_hdb_open] returns, and every block it took from [tsk_malloc]
    has been freed when it does. *)
Theorem tsk_hdb_open_frees_db_path (file_path : option path) (flags : Z) (w : world) :
  exists r w',
    tsk_hdb_open E file_path flags w = Returned r w'
    /\ live_buffers w' = live_buffers w.
Proof.
  unfold tsk_hdb_open, bind, tsk_malloc.
  destruct file_path as [file_path|]; [|eexists; eexists; split; reflexivity].
  destruct (tsk_malloc_serves E ((TSTRLEN file_path + 1) * 1));
    [|eexists; eexists; split; reflexivity].
  destruct (tsk_hdb_open_db_path file_path (repeat NUL ((TSTRLEN file_path + 1) * 1)))
    as [flag buf].
  unfold hdb_open_file, construct, bind, log, report, free_buffer, fclose, ret. simpl.
  destruct (Z.land flags (TSK_HDB_OPEN_IDXONLY E) =? 0)%Z; simpl.
  - destruct (hdb_fs E (c_str buf)) as [data|]; simpl.
    + destruct (hdb_determine_db_type (sniff E)
                  (opened_stream E (c_str buf) data) (c_str buf))
        as [t f].
      destruct t; simpl;
        try solve [eexists; eexists; split; reflexivity];
        try solve [run_constructor; simpl; eexists; eexists; split; reflexivity].
      destruct (hdb_fs E file_path) as [idx|]; simpl;
        [|eexists; eexists; split; reflexivity].
      run_constructor; simpl; eexists; eexists; split; reflexivity.
    + destruct (nonzero flag); simpl; [|eexists; eexists; split; reflexivity].
      destruct (hdb_fs E file_path) as [idx|]; simpl;
        [|eexists; eexists; split; reflexivity].
      run_constructor; simpl; eexists; eexists; split; reflexivity.
  - destruct (hdb_fs E file_path) as [idx|]; simpl;
      [|eexists; eexists; split; reflexivity].
    run_constructor; simpl; eexists; eexists; split; reflexivity.
Qed.

End RouterAccounting.

(** X6: the copy of lines 165 and 168 writes at most [TSTRLEN
    file_path] cells of the buffer of [TSTRLEN file_path + 1] cells: the
    buffer keeps its size and ends in NULs, so that it is a terminated
    string whatever the path. *)
Theorem tsk_hdb_open_db_path_in_bounds (file_path : path) :
  exists n,
    n <= TSTRLEN file_path
    /\ snd (tsk_hdb_open_db_path file_path (repeat NUL ((TSTRLEN file_path + 1) * 1)))
       = firstn n file_path ++ repeat NUL (TSTRLEN file_path + 1 - n).
Proof.
  assert (Hcopy : forall n, n <= TSTRLEN file_path ->
            TSTRNCPY (repeat NUL ((TSTRLEN file_path + 1) * 1)) file_path n
            = firstn n file_path ++ repeat NUL (TSTRLEN file_path + 1 - n)).
  { intros n Hn. unfold TSTRNCPY, TSTRLEN in *.
    rewrite firstn_app. replace (n - List.length file_path) with 0 by lia.
    simpl firstn at 2. rewrite app_nil_r, skipn_repeat_NUL.
    replace ((List.length file_path + 1) * 1 - n) with (List.length file_path + 1 - n) by lia.
    reflexivity. }
  unfold tsk_hdb_open_db_path.
  destruct (TSTRRCHR file_path "-"%char) as [off|] eqn:Hext.
  - apply TSTRRCHR_in_range in Hext.
    match goal with
    | |- context [if ?c then _ else _] => destruct c
    end; simpl snd.
    + exists off. split; [unfold TSTRLEN; lia | apply Hcopy; unfold TSTRLEN; lia].
    + exists (TSTRLEN file_path). split; [lia | apply Hcopy; lia].
  - exists (TSTRLEN file_path). split; [lia | apply Hcopy; lia].
Qed.


(** ** Sessions on a handle *)

Section SessionFurther.

Context {B TSK_HDB_LOOKUP_FN void_ptr : Type}.

Local Abbreviation HDB := (TSK_HDB_INFO B TSK_HDB_LOOKUP_FN void_ptr).

Ltac unfold_api H :=
  unfold perform, forget, run_mutation,
    tsk_hdb_get_db_path, tsk_hdb_get_display_name, tsk_hdb_uses_external_indexes,
    tsk_hdb_get_idx_path, tsk_hdb_open_idx, tsk_hdb_has_idx, tsk_hdb_is_idx_only,
    tsk_hdb_make_index, tsk_hdb_lookup_str, tsk_hdb_lookup_raw,
    tsk_hdb_lookup_verbose_str, tsk_hdb_accepts_updates, tsk_hdb_add_entry,
    tsk_hdb_begin_transaction, tsk_hdb_commit_transaction,
    tsk_hdb_rollback_transaction, tsk_hdb_close in H;
  unfold invoke, invoke0 in H;
  unfold bind, ret, log, report, fault, with_impl, with_transaction_in_progress in H;
  simpl in H.

(** Case analysis on the innermost scrutinee of [H]. *)
Ltac case_split H :=
  repeat match type of H with
         | context [match ?x with _ => _ end] =>
             lazymatch x with
             | context [match _ with _ => _ end] => fail
             | _ => destruct x eqn:?; simpl in H; try discriminate H
             end
         end.

(** One call: the type tag and the table are kept; the transaction
    flag is kept too unless the call is begin, commit or rollback, which
    leave it at 0 or 1 when they change it. *)
Lemma perform_step (c : api_call TSK_HDB_LOOKUP_FN void_ptr) (h h' : HDB) (w w' : world) :
  perform c (Some h) w = Returned (Some h') w' ->
  same_table h h'
  /\ (transaction_in_progress h' = transaction_in_progress h
      \/ (is_transaction_call c = true
          /\ (transaction_in_progress h' = 0%Z \/ transaction_in_progress h' = 1%Z))).
Proof.
  intros Hrun. destruct h. unfold same_table.
  destruct c as [[| | |]| | | | | | | | | | | | | ]; unfold_api Hrun; case_split Hrun;
    injection Hrun as <- _; simpl;
    (split; [repeat split | ]);
    first [ left; reflexivity
          | right; split; [reflexivity | left; reflexivity]
          | right; split; [reflexivity | right; reflexivity] ].
Qed.

Lemma same_table_refl (h : HDB) : same_table h h.
Proof. unfold same_table. repeat split. Qed.

Lemma same_table_trans (h1 h2 h3 : HDB) :
  same_table h1 h2 -> same_table h2 h3 -> same_table h1 h3.
Proof.
  unfold same_table. intros H12 H23.
  repeat match goal with
         | H : _ /\ _ |- _ => destruct H
         end.
  repeat split; congruence.
Qed.

(** X13: no call of the API changes the type tag or an entry of the
    function table: through any session the struct keeps the tag and
    the table it was constructed with. *)
Theorem reachable_same_table (h0 h : HDB) (w0 w : world) :
  reachable h0 w0 h w -> same_table h0 h.
Proof.
  intros Hreach. induction Hreach as [|h w c h' w' _ IH Hstep].
  - apply same_table_refl.
  - apply (same_table_trans h0 h h'); [exact IH | apply (perform_step c h h' w w' Hstep)].
Qed.

(** X14: the transaction flag is a truth value that stays 0 or 1
    through any session that starts with it at 0 or 1. *)
Theorem transaction_flag_stays_boolean (h0 h : HDB) (w0 w : world) :
  transaction_in_progress h0 = 0%Z \/ transaction_in_progress h0 = 1%Z ->
  reachable h0 w0 h w ->
  transaction_in_progress h = 0%Z \/ transaction_in_progress h = 1%Z.
Proof.
  intros Hinit Hreach. induction Hreach as [|h w c h' w' _ IH Hstep]; [exact Hinit|].
  destruct (perform_step c h h' w w' Hstep) as [_ [Hkeep | [_ Hset]]].
  - rewrite Hkeep. exact IH.
  - exact Hset.
Qed.

(** X15: only begin, commit and rollback move the transaction flag:
    [tsk_hdb_add_entry], the lookups, the index operations and the
    accessors return the struct with the flag as they found it, inside
    a transaction and outside. *)
Theorem transaction_flag_frame (c : api_call TSK_HDB_LOOKUP_FN void_ptr) (h h' : HDB)
        (w w' : world) :
  is_transaction_call c = false ->
  perform c (Some h) w = Returned (Some h') w' ->
  transaction_in_progress h' = transaction_in_progress h.
Proof.
  intros Hc Hrun.
  destruct (perform_step c h h' w w' Hrun) as [_ [Hkeep | [Ht _]]]; [exact Hkeep|].
  rewrite Hc in Ht. discriminate Ht.
Qed.

Lemma populated_same_table (h h' : HDB) :
  same_table h h' -> populated h = true -> populated h' = true.
Proof.
  unfold same_table, populated. intros Hsame Hpop.
  repeat match goal with
         | H : _ /\ _ |- _ => destruct H
         end.
  repeat match goal with
         | H : ?f h' = ?f h |- _ => rewrite H; clear H
         end.
  exact Hpop.
Qed.

(** With every entry of the table set, no call goes through a NULL
    pointer. *)
Lemma perform_populated (c : api_call TSK_HDB_LOOKUP_FN void_ptr) (h : HDB) (w : world) :
  populated h = true -> perform c (Some h) w <> Fault.
Proof.
  intros Hpop Hrun. destruct h. unfold populated in Hpop. simpl in Hpop.
  repeat (apply andb_true_iff in Hpop; destruct Hpop as [Hpop ?]).
  repeat match goal with
         | H : is_set ?f = true |- _ => destruct f; [clear H | discriminate H]
         end.
  destruct c as [[| | |]| | | | | | | | | | | | | ]; unfold_api Hrun; case_split Hrun;
    discriminate Hrun.
Qed.

(** X16: a handle constructed with every entry of its table set never
    sends a call through a NULL function pointer, whatever sequence of
    operations the caller applies to it. *)
Theorem populated_never_faults (h0 h : HDB) (w0 w : world)
        (c : api_call TSK_HDB_LOOKUP_FN void_ptr) :
  populated h0 = true ->
  reachable h0 w0 h w ->
  perform c (Some h) w <> Fault.
Proof.
  intros Hpop Hreach. apply perform_populated.
  apply (populated_same_table h0 h); [|exact Hpop].
  apply (reachable_same_table h0 h w0 w Hreach).
Qed.

(** X8: after a begin that the backend accepted, the flag is 1 and the
    backend's data is what its begin left; a second begin is refused
    with a procedure error, does not reach the backend's begin, and
    leaves that struct, flag included, as the first call left it. *)
Theorem tsk_hdb_begin_transaction_then_again (h : HDB) (w : world) (v : Z)
        (g : backend_fn B unit Z) :
  accepts_updates h = Some v -> v <> 0%Z ->
  transaction_in_progress h = 0%Z ->
  begin_transaction h = Some g ->
  fst (fst (g (impl h) tt (tsk_error w))) = 0%Z ->
  exists h1 w1,
    tsk_hdb_begin_transaction (Some h) w = Returned (0%Z, Some h1) w1
    /\ transaction_in_progress h1 = 1%Z
    /\ impl h1 = snd (fst (g (impl h) tt (tsk_error w)))
    /\ refused TSK_ERR_HDB_PROC [call_backend slot_accepts_updates] h1 w1
               (tsk_hdb_begin_transaction (Some h1) w1).
Proof.
  intros Hcap Hv Htip Hg Hok. pose proof Hv as Hnz. apply nonzero_true_iff in Hnz.
  unfold tsk_hdb_begin_transaction at 1. rewrite Hg, Hcap. simpl. unfold bind; simpl.
  rewrite Hnz, Htip. simpl.
  destruct (g (impl h) tt (tsk_error w)) as [[rc b] e]. simpl in Hok. subst rc. simpl.
  eexists. eexists. split; [reflexivity|]. split; [reflexivity|]. split; [reflexivity|].
  unfold refused, tsk_hdb_begin_transaction. simpl. rewrite Hg, Hcap. simpl.
  unfold bind; simpl. rewrite Hnz. simpl.
  eexists. split; [reflexivity|]. split; reflexivity.
Qed.

(** X9: begin followed by commit, both accepted by the backend, returns
    0 twice and brings the flag back to 0; the backend has seen its
    begin and then its commit, each after a capability check, and the
    struct differs from the initial one in the backend's data only. *)
Theorem begin_then_commit_returns_to_idle (h : HDB) (w : world) (v : Z)
        (g gc : backend_fn B unit Z) :
  accepts_updates h = Some v -> v <> 0%Z ->
  transaction_in_progress h = 0%Z ->
  begin_transaction h = Some g ->
  commit_transaction h = Some gc ->
  fst (fst (g (impl h) tt (tsk_error w))) = 0%Z ->
  fst (fst (gc (snd (fst (g (impl h) tt (tsk_error w)))) tt
               (snd (g (impl h) tt (tsk_error w))))) = 0%Z ->
  exists h1 w1 h2 w2,
    tsk_hdb_begin_transaction (Some h) w = Returned (0%Z, Some h1) w1
    /\ tsk_hdb_commit_transaction (Some h1) w1 = Returned (0%Z, Some h2) w2
    /\ transaction_in_progress h2 = 0%Z
    /\ impl h2 = snd (fst (gc (snd (fst (g (impl h) tt (tsk_error w)))) tt
                             (snd (g (impl h) tt (tsk_error w)))))
    /\ same_table h h2
    /\ dispatched w2 = dispatched w
                       ++ [call_backend slot_accepts_updates;
                           call_backend slot_begin_transaction;
                           call_backend slot_accepts_updates;
                           call_backend slot_commit_transaction].
Proof.
  intros Hcap Hv Htip Hg Hgc Hok1 Hok2. apply nonzero_true_iff in Hv.
  destruct (g (impl h) tt (tsk_error w)) as [[rc b] e] eqn:Hbegin.
  cbn [fst snd] in *. subst rc.
  destruct (gc b tt e) as [[rc2 b2] e2] eqn:Hcommit.
  cbn [fst snd] in *. subst rc2.
  exists (with_transaction_in_progress 1%Z (with_impl b h)).
  exists (with_error e (with_call (call_backend slot_begin_transaction)
                          (with_call (call_backend slot_accepts_updates) w))).
  exists (with_transaction_in_progress 0%Z
            (with_impl b2 (with_transaction_in_progress 1%Z (with_impl b h)))).
  exists (with_error e2
            (with_call (call_backend slot_commit_transaction)
               (with_call (call_backend slot_accepts_updates)
                  (with_error e (with_call (call_backend slot_begin_transaction)
                                   (with_call (call_backend slot_accepts_updates) w)))))).
  split.
  { unfold tsk_hdb_begin_transaction. rewrite Hg, Hcap. simpl. unfold bind; simpl.
    rewrite Hv, Htip. simpl. rewrite Hbegin. reflexivity. }
  split.
  { unfold tsk_hdb_commit_transaction. simpl. rewrite Hgc, Hcap. simpl. unfold bind; simpl.
    rewrite Hv. simpl. rewrite Hcommit. reflexivity. }
  split; [reflexivity|]. split; [reflexivity|]. split.
  - unfold same_table. simpl. repeat split.
  - simpl. repeat rewrite <- app_assoc. reflexivity.
Qed.

(** X10: a commit that the backend fails returns 1 and leaves the
    transaction in progress: the flag is not cleared, the error record
    is the one the backend left, and a begin that follows is refused. *)
Theorem tsk_hdb_commit_transaction_failure_keeps_transaction (h : HDB) (w : world) (v : Z)
        (gc : backend_fn B unit Z) :
  accepts_updates h = Some v -> v <> 0%Z ->
  transaction_in_progress h <> 0%Z ->
  commit_transaction h = Some gc ->
  fst (fst (gc (impl h) tt (tsk_error w))) <> 0%Z ->
  exists h1 w1,
    tsk_hdb_commit_transaction (Some h) w = Returned (1%Z, Some h1) w1
    /\ transaction_in_progress h1 = transaction_in_progress h
    /\ tsk_error w1 = snd (gc (impl h) tt (tsk_error w))
    /\ refused (refusal_kind do_begin_transaction h1) (refusal_calls do_begin_transaction h1)
               h1 w1 (tsk_hdb_begin_transaction (Some h1) w1).
Proof.
  intros Hcap Hv Htip Hgc Hfail. pose proof Hv as Hnz. apply nonzero_true_iff in Hnz.
  pose proof Htip as Htnz. apply nonzero_true_iff in Htnz.
  unfold tsk_hdb_commit_transaction. rewrite Hgc, Hcap. simpl. unfold bind; simpl.
  rewrite Hnz, Htnz. simpl.
  destruct (gc (impl h) tt (tsk_error w)) as [[rc b] e]. simpl in Hfail.
  apply nonzero_true_iff in Hfail. rewrite Hfail. simpl.
  eexists. eexists. split; [reflexivity|]. split; [reflexivity|]. split; [reflexivity|].
  apply (tsk_hdb_begin_transaction_twice (with_impl b h) _ v); assumption.
Qed.

(** X11: on an open handle [tsk_hdb_has_idx] is [tsk_hdb_open_idx] with
    the answer turned into a truth value: it makes the same call of
    [open_index], leaves the same struct and world, and returns 1
    exactly when [tsk_hdb_open_idx] returns 0. *)
Theorem tsk_hdb_has_idx_opens_index (h : HDB) (htype : TSK_HDB_HTYPE_ENUM) (w : world) :
  tsk_hdb_has_idx (Some h) htype w
  = match tsk_hdb_open_idx (Some h) htype w with
    | Returned (r, h') w' => Returned (if (r =? 0)%Z then 1%Z else 0%Z, h') w'
    | Fault => Fault
    end.
Proof.
  unfold tsk_hdb_has_idx, tsk_hdb_open_idx, bind.
  destruct (invoke slot_open_index (open_index h) h htype w) as [[r h'] w'|]; reflexivity.
Qed.

(** X12: [tsk_hdb_lookup_verbose_str] on an open handle with a NULL
    hash or a NULL result returns -1 with an argument error, without a
    call to the backend and with the struct as it was; a NULL hash is
    reported in preference to a NULL result. *)
Theorem tsk_hdb_lookup_verbose_str_null_argument (h : HDB) (hash : option string)
        (result : option void_ptr) (w : world) :
  hash = None \/ result = None ->
  exists w',
    tsk_hdb_lookup_verbose_str (Some h) hash result w = Returned ((-1)%Z, Some h) w'
    /\ t_errno (tsk_error w') = Some TSK_ERR_HDB_ARG
    /\ errstr (tsk_error w')
       = match hash with
         | Some _ => "tsk_hdb_lookup_verbose_str: NULL result"
         | None => "tsk_hdb_lookup_verbose_str: NULL hash"
         end
    /\ dispatched w' = dispatched w.
Proof.
  intros Hnull. unfold tsk_hdb_lookup_verbose_str.
  destruct hash as [hash|].
  - destruct result as [result|]; [destruct Hnull; discriminate|].
    eexists. split; [reflexivity|]. repeat split.
  - eexists. split; [reflexivity|]. repeat split.
Qed.

End SessionFurther.

(** ** The further properties run on the sample collaborators *)

Lemma tsk_hdb_create_needs_kdb_witness :
  tsk_hdb_create sample_collaborators (Some (_TSK_T "cases/new.kdb")) quiet
  = Returned 0%Z (with_call (call_sqlite_hdb_create_db (_TSK_T "cases/new.kdb")) quiet)
  /\ exists w', tsk_hdb_create sample_collaborators (Some (_TSK_T "x.dat")) quiet
                = Returned 1%Z w'
                /\ t_errno (tsk_error w') = Some TSK_ERR_HDB_ARG
                /\ dispatched w' = dispatched quiet.
Proof.
  split.
  - apply (proj1 (tsk_hdb_create_needs_kdb sample_collaborators (_TSK_T "cases/new.kdb") quiet)
             (_TSK_T "cases/new")).
    reflexivity.
  - apply (proj1 (proj2 (tsk_hdb_create_needs_kdb sample_collaborators (_TSK_T "x.dat") quiet))).
    intros base H. apply (f_equal (@rev _)) in H.
    rewrite rev_app_distr in H. discriminate H.
Defined.

Lemma tsk_hdb_open_index_only_flag_witness :
  handed_over (idxonly_open sample_collaborators (_TSK_T "set"))
              [call_hdb_open_file (_TSK_T "set-md5.idx");
               call_constructor TSK_HDB_DBTYPE_IDXONLY_ID (_TSK_T "set")]
              [] quiet
              (tsk_hdb_open sample_collaborators (Some (_TSK_T "set-md5.idx")) 1 quiet).
Proof.
  apply (tsk_hdb_open_index_only_flag sample_collaborators (_TSK_T "set-md5.idx") 1 quiet).
  - reflexivity.
  - discriminate.
Defined.

Lemma tsk_hdb_open_text_format_witness :
  handed_over (md5sum_open sample_collaborators (Some md5sum_stream) (_TSK_T "known.md5"))
              [call_hdb_open_file (_TSK_T "known.md5");
               call_constructor TSK_HDB_DBTYPE_MD5SUM_ID (_TSK_T "known.md5")]
              [_TSK_T "known.md5"] quiet
              (tsk_hdb_open sample_collaborators (Some (_TSK_T "known.md5")) 0 quiet).
Proof.
  apply (tsk_hdb_open_text_format sample_collaborators (_TSK_T "known.md5") 0 quiet
           (f_data md5sum_stream) TSK_HDB_DBTYPE_MD5SUM_ID (md5sum_open sample_collaborators));
    reflexivity.
Defined.

Lemma tsk_hdb_open_sqlite_closes_first_witness :
  handed_over (sqlite_hdb_open sample_collaborators (_TSK_T "hashes.kdb"))
              [call_hdb_open_file (_TSK_T "hashes.kdb");
               call_constructor TSK_HDB_DBTYPE_SQLITE_ID (_TSK_T "hashes.kdb")]
              [] quiet
              (tsk_hdb_open sample_collaborators (Some (_TSK_T "hashes.kdb")) 0 quiet).
Proof.
  apply (tsk_hdb_open_sqlite_closes_first sample_collaborators (_TSK_T "hashes.kdb") 0 quiet
           (f_data kdb_stream)).
  - reflexivity.
  - reflexivity.
  - reflexivity.
  - discriminate.
Defined.

Lemma kdb_session : reachable kdb_idle quiet kdb_begun after_begin.
Proof.
  apply (reachable_step kdb_idle quiet kdb_idle quiet
           (api_mutation do_begin_transaction) kdb_begun after_begin).
  - apply reachable_start.
  - reflexivity.
Qed.

Lemma tsk_hdb_begin_transaction_then_again_witness :
  exists h1 w1,
    tsk_hdb_begin_transaction (Some kdb_idle) quiet = Returned (0%Z, Some h1) w1
    /\ transaction_in_progress h1 = 1%Z
    /\ impl h1 = empty_journal
    /\ refused TSK_ERR_HDB_PROC [call_backend slot_accepts_updates] h1 w1
               (tsk_hdb_begin_transaction (Some h1) w1).
Proof.
  apply (tsk_hdb_begin_transaction_then_again kdb_idle quiet 1%Z journal_begin).
  - reflexivity.
  - discriminate.
  - reflexivity.
  - reflexivity.
  - reflexivity.
Defined.

Lemma begin_then_commit_returns_to_idle_witness :
  exists h1 w1 h2 w2,
    tsk_hdb_begin_transaction (Some kdb_idle) quiet = Returned (0%Z, Some h1) w1
    /\ tsk_hdb_commit_transaction (Some h1) w1 = Returned (0%Z, Some h2) w2
    /\ transaction_in_progress h2 = 0%Z
    /\ impl h2 = empty_journal
    /\ same_table kdb_idle h2
    /\ dispatched w2 = [call_backend slot_accepts_updates;
                        call_backend slot_begin_transaction;
                        call_backend slot_accepts_updates;
                        call_backend slot_commit_transaction].
Proof.
  apply (begin_then_commit_returns_to_idle kdb_idle quiet 1%Z journal_begin journal_commit).
  - reflexivity.
  - discriminate.
  - reflexivity.
  - reflexivity.
  - reflexivity.
  - reflexivity.
  - reflexivity.
Defined.

Lemma tsk_hdb_commit_transaction_failure_keeps_transaction_witness :
  exists h1 w1,
    tsk_hdb_commit_transaction (Some kdb_failing_commit) quiet = Returned (1%Z, Some h1) w1
    /\ transaction_in_progress h1 = transaction_in_progress kdb_failing_commit
    /\ tsk_error w1 = snd (journal_commit_fails (impl kdb_failing_commit) tt (tsk_error quiet))
    /\ refused (refusal_kind do_begin_transaction h1) (refusal_calls do_begin_transaction h1)
               h1 w1 (tsk_hdb_begin_transaction (Some h1) w1).
Proof.
  apply (tsk_hdb_commit_transaction_failure_keeps_transaction
           kdb_failing_commit quiet 1%Z journal_commit_fails).
  - reflexivity.
  - discriminate.
  - discriminate.
  - reflexivity.
  - discriminate.
Defined.

Lemma tsk_hdb_lookup_verbose_str_null_argument_witness :
  exists w',
    tsk_hdb_lookup_verbose_str (Some text_handle) None (Some tt) quiet
    = Returned ((-1)%Z, Some text_handle) w'
    /\ t_errno (tsk_error w') = Some TSK_ERR_HDB_ARG
    /\ errstr (tsk_error w') = "tsk_hdb_lookup_verbose_str: NULL hash"
    /\ dispatched w' = dispatched quiet.
Proof.
  apply (tsk_hdb_lookup_verbose_str_null_argument text_handle None (Some tt) quiet).
  left. reflexivity.
Defined.

Lemma reachable_same_table_witness : same_table kdb_idle kdb_begun.
Proof.
  apply (reachable_same_table kdb_idle kdb_begun quiet after_begin). exact kdb_session.
Defined.

Lemma transaction_flag_stays_boolean_witness :
  transaction_in_progress kdb_begun = 0%Z \/ transaction_in_progress kdb_begun = 1%Z.
Proof.
  apply (transaction_flag_stays_boolean kdb_idle kdb_begun quiet after_begin).
  - left. reflexivity.
  - exact kdb_session.
Defined.

Lemma transaction_flag_frame_witness :
  transaction_in_progress
    (with_impl {| stored := []; pending := ["d41d8cd98f00b204e9800998ecf8427e"] |} kdb_begun)
  = transaction_in_progress kdb_begun.
Proof.
  apply (transaction_flag_frame
           (api_mutation (do_add_entry None (Some "d41d8cd98f00b204e9800998ecf8427e")
                                       None None None))
           kdb_begun
           (with_impl {| stored := []; pending := ["d41d8cd98f00b204e9800998ecf8427e"] |}
                      kdb_begun)
           after_begin
           (with_call (call_backend slot_add_entry)
              (with_call (call_backend slot_accepts_updates) after_begin))).
  - reflexivity.
  - reflexivity.
Defined.

Lemma populated_never_faults_witness :
  perform (api_mutation do_rollback_transaction) (Some kdb_begun) after_begin <> Fault.
Proof.
  apply (populated_never_faults kdb_idle kdb_begun quiet after_begin).
  - reflexivity.
  - exact kdb_session.
Defined.

(** ** The capability query and the path split *)

Section CapabilityFurther.

Context {B TSK_HDB_LOOKUP_FN void_ptr : Type}.

Local Abbreviation HDB := (TSK_HDB_INFO B TSK_HDB_LOOKUP_FN void_ptr).

(** X17: [tsk_hdb_add_entry] reaches the backend exactly when the
    capability query answers yes: on a handle with both entries set,
    [tsk_hdb_accepts_updates] returns the backend's answer, and
    [tsk_hdb_add_entry] calls the backend's [add_entry], once and after
    the capability check, and returns its result when that answer is
    not 0, and does not call it when the answer is 0. *)
Theorem tsk_hdb_add_entry_follows_accepts_updates (h : HDB) (w : world) (v : Z)
        (g : backend_fn B entry_args Z) (filename md5 sha1 sha256 comment : option string) :
  accepts_updates h = Some v ->
  add_entry h = Some g ->
  value_of (tsk_hdb_accepts_updates (Some h) w) = Some v
  /\ (v <> 0%Z ->
      calls_since w (tsk_hdb_add_entry (Some h) filename md5 sha1 sha256 comment w)
      = [call_backend slot_accepts_updates; call_backend slot_add_entry]
      /\ value_of (tsk_hdb_add_entry (Some h) filename md5 sha1 sha256 comment w)
         = Some (fst (fst (g (impl h) (filename, md5, sha1, sha256, comment) (tsk_error w)))))
  /\ (v = 0%Z ->
      calls_since w (tsk_hdb_add_entry (Some h) filename md5 sha1 sha256 comment w)
      = [call_backend slot_accepts_updates]
      /\ value_of (tsk_hdb_add_entry (Some h) filename md5 sha1 sha256 comment w) = Some 1%Z).
Proof.
  intros Hcap Hadd. split; [|split].
  - unfold tsk_hdb_accepts_updates. rewrite Hcap. reflexivity.
  - intros Hv. apply nonzero_true_iff in Hv.
    unfold tsk_hdb_add_entry. rewrite Hadd, Hcap. simpl. unfold bind; simpl. rewrite Hv. simpl.
    destruct (g (impl h) (filename, md5, sha1, sha256, comment) (tsk_error w)) as [[rc b] e].
    simpl. split; [|reflexivity].
    rewrite <- app_assoc. apply skipn_length_app.
  - intros ->. unfold tsk_hdb_add_entry. rewrite Hadd, Hcap. simpl.
    split; [|reflexivity]. apply skipn_length_app.
Qed.

End CapabilityFurther.

(** X18: the database path is always the supplied path with nothing,
    "-md5.idx" or "-sha1.idx" taken off its end, and the flag
    [file_path_is_idx_path] is 1 exactly when a suffix was taken off. *)
Theorem tsk_hdb_open_db_path_splits (file_path : path) :
  cstring file_path ->
  exists suffix,
    file_path = db_path_of file_path ++ suffix
    /\ ((fst (tsk_hdb_open_db_path file_path (repeat NUL ((TSTRLEN file_path + 1) * 1))) = 1%Z
         /\ (suffix = _TSK_T "-md5.idx" \/ suffix = _TSK_T "-sha1.idx"))
        \/ (fst (tsk_hdb_open_db_path file_path (repeat NUL ((TSTRLEN file_path + 1) * 1))) = 0%Z
            /\ suffix = [])).
Proof.
  intros Hs.
  assert (Hdec : (exists base, idx_suffixed file_path base)
                 \/ (forall base, ~ idx_suffixed file_path base)).
  { unfold tsk_hdb_open_db_path.
    destruct (TSTRRCHR file_path "-"%char) as [off|] eqn:Hext.
    - destruct ((TSTRCMP (skipn off file_path) (_TSK_T "-md5.idx") =? 0)%Z) eqn:Hmd5.
      + left. exists (firstn off file_path). left.
        apply Z.eqb_eq, TSTRCMP_zero in Hmd5. rewrite <- Hmd5. symmetry. apply firstn_skipn.
      + destruct ((TSTRCMP (skipn off file_path) (_TSK_T "-sha1.idx") =? 0)%Z) eqn:Hsha1.
        * left. exists (firstn off file_path). right.
          apply Z.eqb_eq, TSTRCMP_zero in Hsha1. rewrite <- Hsha1. symmetry. apply firstn_skipn.
        * right. intros base [H | H]; subst file_path;
            [ change (base ++ _TSK_T "-md5.idx") with (base ++ "-"%char :: _TSK_T "md5.idx") in *
            | change (base ++ _TSK_T "-sha1.idx") with (base ++ "-"%char :: _TSK_T "sha1.idx") in * ];
            rewrite TSTRRCHR_last in Hext by (simpl; intuition discriminate);
            injection Hext as <-; rewrite skipn_length_app in *;
            discriminate.
    - right. intros base [H | H]; subst file_path;
        [ change (base ++ _TSK_T "-md5.idx") with (base ++ "-"%char :: _TSK_T "md5.idx") in *
        | change (base ++ _TSK_T "-sha1.idx") with (base ++ "-"%char :: _TSK_T "sha1.idx") in * ];
        rewrite TSTRRCHR_last in Hext by (simpl; intuition discriminate);
        discriminate Hext. }
  destruct Hdec as [[base Hsuf] | Hplain].
  - rewrite (db_path_of_suffixed file_path base Hs Hsuf).
    rewrite (tsk_hdb_open_db_path_suffixed file_path base _ Hsuf). simpl fst.
    destruct Hsuf as [-> | ->]; eexists; (split; [reflexivity|]); left; split; auto.
  - rewrite (db_path_of_plain file_path Hs Hplain).
    rewrite (tsk_hdb_open_db_path_plain file_path _ Hplain). simpl fst.
    exists []. split; [symmetry; apply app_nil_r|]. right. split; reflexivity.
Qed.

Lemma tsk_hdb_add_entry_follows_accepts_updates_witness :
  calls_since quiet
    (tsk_hdb_add_entry (Some kdb_idle) None (Some "d41d8cd98f00b204e9800998ecf8427e")
                       None None None quiet)
  = [call_backend slot_accepts_updates; call_backend slot_add_entry]
  /\ calls_since quiet
       (tsk_hdb_add_entry (Some text_handle) None (Some "d41d8cd98f00b204e9800998ecf8427e")
                          None None None quiet)
     = [call_backend slot_accepts_updates].
Proof.
  split.
  - apply (proj1 (proj2 (tsk_hdb_add_entry_follows_accepts_updates
                           kdb_idle quiet 1%Z journal_add
                           None (Some "d41d8cd98f00b204e9800998ecf8427e") None None None
                           eq_refl eq_refl))).
    discriminate.
  - apply (proj2 (proj2 (tsk_hdb_add_entry_follows_accepts_updates
                           text_handle quiet 0%Z journal_add
                           None (Some "d41d8cd98f00b204e9800998ecf8427e") None None None
                           eq_refl eq_refl))).
    reflexivity.
Defined.

Lemma tsk_hdb_open_db_path_splits_witness :
  exists suffix,
    _TSK_T "set-md5.idx" = db_path_of (_TSK_T "set-md5.idx") ++ suffix
    /\ ((fst (tsk_hdb_open_db_path (_TSK_T "set-md5.idx")
                (repeat NUL ((TSTRLEN (_TSK_T "set-md5.idx") + 1) * 1))) = 1%Z
         /\ (suffix = _TSK_T "-md5.idx" \/ suffix = _TSK_T "-sha1.idx"))
        \/ (fst (tsk_hdb_open_db_path (_TSK_T "set-md5.idx")
                   (repeat NUL ((TSTRLEN (_TSK_T "set-md5.idx") + 1) * 1))) = 0%Z
            /\ suffix = [])).
Proof.
  apply (tsk_hdb_open_db_path_splits (_TSK_T "set-md5.idx")). reflexivity.
Defined.
